(** * JWST planned observations notebook: the target-list loader

    A shallow embedding of the two pieces of logic of
    [Querying_JWST_in_astroquery.ipynb] that carry a contract:

    - [load_targets_from_file], the CSV target loader;
    - the construction of the [targets] dictionary that holds one archive
      count per target name.

    Python [str] values are embedded as [string], a character standing for
    its code point (code points below 256).  pandas is an external
    collaborator: [pd.read_csv] is a parameter of the model, and the few
    [DataFrame] operations the loader uses are written out below.  A call
    yields the list of file accesses it made together with its result or
    the exception it raised. *)

From Stdlib Require Import String Ascii List Bool Arith NArith Lia.
From Stdlib Require Import DecimalString DecimalN.
Import ListNotations.

Local Open Scope string_scope.
Local Open Scope list_scope.

(** ** Python strings *)

Module Str.

(** [str.isspace] on one character: the code points below 256 that Python
    classes as whitespace. *)
Definition isspace (c : ascii) : bool :=
  let n := N_of_ascii c in
  ((9 <=? n) && (n <=? 13) || (28 <=? n) && (n <=? 32)
   || (n =? 133) || (n =? 160))%N.

(** [str.lower] on one character: A-Z and the Latin-1 capitals move up by
    32, everything else stays. *)
Definition lower_char (c : ascii) : ascii :=
  let n := N_of_ascii c in
  if ((65 <=? n) && (n <=? 90)
      || (192 <=? n) && (n <=? 222) && negb (n =? 215))%N
  then ascii_of_N (n + 32) else c.

Fixpoint lower (s : string) : string :=
  match s with
  | EmptyString => EmptyString
  | String c s' => String (lower_char c) (lower s')
  end.

Fixpoint lstrip (s : string) : string :=
  match s with
  | EmptyString => EmptyString
  | String c s' => if isspace c then lstrip s' else s
  end.

Fixpoint rstrip (s : string) : string :=
  match s with
  | EmptyString => EmptyString
  | String c s' =>
      match rstrip s' with
      | EmptyString => if isspace c then EmptyString else String c EmptyString
      | r => String c r
      end
  end.

(** [s.strip()] *)
Definition strip (s : string) : string := rstrip (lstrip s).

(** [s.endswith(suffix)]: some tail of [s] is the suffix. *)
Fixpoint endswith (s suffix : string) : bool :=
  if String.eqb s suffix then true
  else match s with
       | EmptyString => false
       | String _ s' => endswith s' suffix
       end.

(** Truth value of a [str]: the empty string is false. *)
Definition truthy (s : string) : bool :=
  match s with EmptyString => false | _ => true end.

(** The double quote, for messages that contain one. *)
Definition dquote : string := String (ascii_of_nat 34) EmptyString.

(** ['... {0}'.format(x)] for a template that ends in its only field. *)
Definition format_suffix (template x : string) : string := template ++ x.

End Str.

(** ** Python values, exceptions and the effect of a call *)

(** The arguments whose type the loader itself checks can be any object. *)
Inductive pyvalue : Type :=
| PyStr (s : string)
| PyInt (n : N)
| PyNone.

Definition isinstance_str (v : pyvalue) : bool :=
  match v with PyStr _ => true | _ => false end.

(** [==] between two objects. *)
Definition py_eq (a b : pyvalue) : bool :=
  match a, b with
  | PyStr x, PyStr y => String.eqb x y
  | PyInt x, PyInt y => N.eqb x y
  | PyNone, PyNone => true
  | _, _ => false
  end.

(** [x in [..]] on a list literal. *)
Definition py_in (x : pyvalue) (l : list pyvalue) : bool :=
  existsb (py_eq x) l.

(** What [pd.read_csv] can raise. *)
Inductive io_error : Type :=
| FileNotFoundError
| PermissionError
| EmptyDataError
| ParserError
| UnicodeDecodeError.

Inductive exn : Type :=
| AssertionError (msg : string)
| ReadFailure (e : io_error)
| KeyError (key : string)
| IndexError
| AttributeError
| TypeError
| ValueError.

(** The only effect of the loader is reading the named file. *)
Inductive event : Type :=
| ReadCsv (path : string).

Inductive result (A : Type) : Type :=
| Ok (a : A)
| Raise (e : exn).
Arguments Ok {A} a.
Arguments Raise {A} e.

(** A computation yields the file accesses it made and how it ended. *)
Definition M (A : Type) : Type := list event * result A.

Definition ret {A} (a : A) : M A := ([], Ok a).

Definition raise {A} (e : exn) : M A := ([], Raise e).

Definition bind {A B} (m : M A) (k : A -> M B) : M B :=
  match m with
  | (t, Ok a) => let (t', r) := k a in (t ++ t', r)
  | (t, Raise e) => (t, Raise e)
  end.

Notation "x <- m ;; k" := (bind m (fun x => k))
  (at level 61, m at next level, right associativity).
Notation "m ;; k" := (bind m (fun _ => k))
  (at level 61, right associativity).

(** [assert cond, msg] *)
Definition assert_ (cond : bool) (msg : string) : M unit :=
  if cond then ret tt else raise (AssertionError msg).

Definition trace {A} (m : M A) : list event := fst m.
Definition outcome {A} (m : M A) : result A := snd m.

(** ** The pandas collaborator *)

Section Loader.

(** A cell of the parsed table, as [read_csv] delivers it. *)
Context {cell : Type}.

(** A parsed table: the column labels and the data rows, in file order. *)
Record DataFrame : Type := mkDataFrame {
  columns : list string;
  rows : list (list cell)
}.

(** [read_csv] gives every row one cell per column. *)
Definition rectangular (df : DataFrame) : Prop :=
  Forall (fun r => length r = length (columns df)) (rows df).

(** What indexing a frame returns. *)
Inductive pdobj : Type :=
| Series (values : list cell)
| Frame (df : DataFrame).

(** [pd.read_csv(path)] on the storage the call runs against. *)
Definition storage : Type := string -> io_error + DataFrame.

Definition read_csv (fs : storage) (path : string) : M DataFrame :=
  match fs path with
  | inl e => ([ReadCsv path], Raise (ReadFailure e))
  | inr df => ([ReadCsv path], Ok df)
  end.

(** [df.rename(columns=f, inplace=True)] *)
Definition rename (f : string -> string) (df : DataFrame) : DataFrame :=
  mkDataFrame (map f (columns df)) (rows df).

(** [label in df.columns] *)
Definition in_columns (label : string) (df : DataFrame) : bool :=
  existsb (String.eqb label) (columns df).

(** The positions at which a label occurs among the columns. *)
Fixpoint positions_from (i : nat) (label : string) (cols : list string)
  : list nat :=
  match cols with
  | [] => []
  | c :: cols' =>
      if String.eqb c label
      then i :: positions_from (S i) label cols'
      else positions_from (S i) label cols'
  end.

Definition positions (label : string) (df : DataFrame) : list nat :=
  positions_from 0 label (columns df).

(** The entries of a row (or of the label list) at the given positions. *)
Definition take {A : Type} (ps : list nat) (r : list A) : list A :=
  flat_map (fun p => match nth_error r p with
                     | Some c => [c]
                     | None => []
                     end) ps.

(** The sub-frame made of the columns at the given positions. *)
Definition select (ps : list nat) (df : DataFrame) : DataFrame :=
  mkDataFrame (take ps (columns df)) (map (take ps) (rows df)).

(** [df[label]]: a [Series] when the label names one column, a
    [DataFrame] of all the columns that carry it when it names several. *)
Definition getitem (df : DataFrame) (label : string) : M pdobj :=
  match positions label df with
  | [] => raise (KeyError label)
  | [p] => ret (Series (flat_map (take [p]) (rows df)))
  | ps => ret (Frame (select ps df))
  end.

(** [df[labels]] for a list (or an [Index]) of labels: the columns of each
    label in turn. *)
Fixpoint positions_of (labels : list string) (df : DataFrame)
  : M (list nat) :=
  match labels with
  | [] => ret []
  | l :: ls =>
      match positions l df with
      | [] => raise (KeyError l)
      | ps => rest <- positions_of ls df ;; ret (ps ++ rest)
      end
  end.

Definition getitem_list (df : DataFrame) (labels : list string)
  : M DataFrame :=
  ps <- positions_of labels df ;; ret (select ps df).

(** [df.columns[i]] *)
Definition columns_item (df : DataFrame) (i : nat) : M string :=
  match nth_error (columns df) i with
  | Some c => ret c
  | None => raise IndexError
  end.

(** [df.columns[0:n]] *)
Definition columns_slice (df : DataFrame) (n : nat) : list string :=
  firstn n (columns df).

(** [obj.to_list()]: a [Series] has the method; on a [DataFrame] the
    attribute lookup fails, or finds a column of that name, which is not
    callable. *)
Definition to_list (obj : pdobj) : M (list cell) :=
  match obj with
  | Series values => ret values
  | Frame df =>
      if in_columns "to_list" df then raise TypeError
      else raise AttributeError
  end.

(** No label occurs twice. *)
Fixpoint distinct (l : list string) : bool :=
  match l with
  | [] => true
  | x :: l' => negb (existsb (String.eqb x) l') && distinct l'
  end.

(** [df.to_records(index=False).tolist()]: one tuple per row.  The record
    array takes the column labels as its field names and refuses a name
    that occurs twice. *)
Definition to_records_tolist (df : DataFrame) : M (list (list cell)) :=
  if distinct (columns df) then ret (rows df) else raise ValueError.

(** ** The loader *)

(** What the loader returns: a list of names, a list of coordinate tuples,
    or [None] when control runs off the end of the function. *)
Inductive targets : Type :=
| Names (l : list cell)
| Coords (l : list (list cell))
| NoTargets.

Definition msg_filename : string := "filename must be a string".
Definition msg_load_by : string :=
  "load_by can only be either " ++ Str.dquote ++ "name" ++ Str.dquote
  ++ " or " ++ Str.dquote ++ "coord" ++ Str.dquote.
Definition msg_csv : string := "filename must be a valid csv file".
Definition msg_column (col : string) : string :=
  Str.format_suffix "csv file does not contain column " col.

(** [x.strip().lower()] *)
Definition normalize (x : string) : string := Str.lower (Str.strip x).

(** [filename.endswith('.csv')]; only a [str] has the method. *)
Definition filename_endswith (filename : pyvalue) (suffix : string)
  : M bool :=
  match filename with
  | PyStr s => ret (Str.endswith s suffix)
  | _ => raise AttributeError
  end.

(** [load_targets_from_file(filename, load_by, namecol, racol, deccol)].
    The column parameters are [str], as documented; [filename] and
    [load_by] are any object, since the function checks them itself. *)
Definition load_targets_from_file (fs : storage)
    (filename load_by : pyvalue) (namecol racol deccol : string)
  : M targets :=
  assert_ (isinstance_str filename) msg_filename ;;
  assert_ (py_in load_by [PyStr "name"; PyStr "coord"]) msg_load_by ;;
  (* read in csv file, column names to lowercase, stripped whitespace *)
  is_csv <- filename_endswith filename ".csv" ;;
  assert_ is_csv msg_csv ;;
  df <- match filename with
        | PyStr path => read_csv fs path
        | _ => raise TypeError
        end ;;
  let df := rename normalize df in
  (* extract target names *)
  if py_eq load_by (PyStr "name") then
    let namecol := normalize namecol in
    (if Str.truthy namecol
     then assert_ (in_columns namecol df) (msg_column namecol)
     else ret tt) ;;
    t <- (if Str.truthy namecol then getitem df namecol
          else c0 <- columns_item df 0 ;; getitem df c0) ;;
    l <- to_list t ;;
    ret (Names l)
  (* extract target coordinates *)
  else if py_eq load_by (PyStr "coord") then
    let racol := normalize racol in
    let deccol := normalize deccol in
    (if Str.truthy racol
     then assert_ (in_columns racol df) (msg_column racol)
     else ret tt) ;;
    (if Str.truthy deccol
     then assert_ (in_columns deccol df) (msg_column deccol)
     else ret tt) ;;
    coord <- (if Str.truthy racol && Str.truthy deccol
              then getitem_list df [racol; deccol]
              else getitem_list df (columns_slice df 2)) ;;
    l <- to_records_tolist coord ;;
    ret (Coords l)
  else ret NoTargets.

(** A call that leaves keyword arguments out: the signature's defaults
    [load_by='name', namecol='target_name', racol='ra', deccol='dec']. *)
Record keywords : Type := mkKeywords {
  kw_load_by : option pyvalue;
  kw_namecol : option string;
  kw_racol : option string;
  kw_deccol : option string
}.

Definition no_keywords : keywords := mkKeywords None None None None.

Definition or_default {A : Type} (o : option A) (d : A) : A :=
  match o with Some a => a | None => d end.

Definition call_load_targets_from_file (fs : storage)
    (filename : pyvalue) (kw : keywords) : M targets :=
  load_targets_from_file fs filename
    (or_default (kw_load_by kw) (PyStr "name"))
    (or_default (kw_namecol kw) "target_name")
    (or_default (kw_racol kw) "ra")
    (or_default (kw_deccol kw) "dec").

End Loader.

Arguments DataFrame : clear implicits.
Arguments storage : clear implicits.
Arguments pdobj : clear implicits.
Arguments targets : clear implicits.

(** ** A sample file: the notebook's [targets.csv] *)

Definition targets_csv : DataFrame string :=
  mkDataFrame ["target_name"; " RA"; " DEC"]
    [ ["CX Tau"; " 67.910"; " 18.2336"];
      ["Fomalhaut"; " 67.910"; " 18.2336"];
      ["HL Tauri"; " 67.910"; " 18.2336"];
      ["M 8"; " 67.910"; " 18.2336"];
      ["HD 12345"; " 67.910"; " 18.2336"] ].

(** A file whose name column is not the first one. *)
Definition ids_csv : DataFrame string :=
  mkDataFrame ["ID"; "Target_Name "]
    [ ["1"; "CX Tau"]; ["2"; "M 8"]; ["3"; "CX Tau"] ].

(** A file that has none of the default column names. *)
Definition radec_csv : DataFrame string :=
  mkDataFrame ["RAJ2000"; "DEJ2000"; "Name"]
    [ ["67.910"; "18.2336"; "CX Tau"]; ["344.41"; "-29.622"; "Fomalhaut"] ].


Definition disk : storage string :=
  fun path =>
    if String.eqb path "targets.csv" then inr targets_csv
    else if String.eqb path "ids.csv" then inr ids_csv
    else if String.eqb path "radec.csv" then inr radec_csv
    else inl FileNotFoundError.

(** ** The target-count dictionary *)

(** A Python [dict] keeps its keys in insertion order; assigning to a key
    that is present replaces the value where the key stands. *)
Definition dict (V : Type) : Type := list (string * V).

Fixpoint setitem {V : Type} (d : dict V) (k : string) (v : V) : dict V :=
  match d with
  | [] => [(k, v)]
  | (k', v') :: d' =>
      if String.eqb k k' then (k', v) :: d'
      else (k', v') :: setitem d' k v
  end.

Definition keys {V : Type} (d : dict V) : list string := map fst d.

Fixpoint getitem_dict {V : Type} (d : dict V) (k : string) : option V :=
  match d with
  | [] => None
  | (k', v) :: d' => if String.eqb k k' then Some v else getitem_dict d' k
  end.

Section TargetCounts.

(** [Observations.query_criteria_count(objectname=t, ...)], the archive's
    answer for a target name. *)
Variable query_criteria_count : string -> nat.

(** [{name: 0 for name in target_names}] *)
Definition zero_counts (target_names : list string) : dict nat :=
  fold_left (fun d name => setitem d name 0) target_names [].

(** [for t, n in targets.items(): targets[t] = query_criteria_count(t)]:
    the iterator walks the live dictionary by position; [steps] bounds
    the walk by the number of entries. *)
Fixpoint count_loop (steps i : nat) (targets : dict nat) : dict nat :=
  match steps with
  | O => targets
  | S steps' =>
      match nth_error targets i with
      | None => targets
      | Some (t, _) =>
          count_loop steps' (S i)
            (setitem targets t (query_criteria_count t))
      end
  end.

Definition count_targets (target_names : list string) : dict nat :=
  let targets := zero_counts target_names in
  count_loop (length targets) 0 targets.

End TargetCounts.

(** ** Notions the statements use *)

(** The list of the distinct elements of a sequence, each at the place of
    its first occurrence. *)
Fixpoint first_occurrences (l : list string) : list string :=
  match l with
  | [] => []
  | x :: l' =>
      x :: filter (fun y => negb (String.eqb y x)) (first_occurrences l')
  end.

(** Position of the first occurrence of [x] in [l] ([length l] if none). *)
Fixpoint index_of (x : string) (l : list string) : nat :=
  match l with
  | [] => 0
  | y :: l' => if String.eqb y x then 0 else S (index_of x l')
  end.

(** [x in l] on a list of strings. *)
Definition mem (x : string) (l : list string) : bool :=
  existsb (String.eqb x) l.

(** The header names as the loader matches them. *)
Definition normalized_columns {cell : Type} (df : DataFrame cell)
  : list string :=
  map normalize (columns df).

(** A table as [read_csv] gives it for a file whose header names stay
    distinct once trimmed and lower-cased. *)
Definition valid_table {cell : Type} (df : DataFrame cell) : Prop :=
  rectangular df /\ NoDup (normalized_columns df).

(** The two values [load_by] may take. *)
Definition recognized_mode (v : pyvalue) : Prop :=
  v = PyStr "name" \/ v = PyStr "coord".

(** Column [k] is the one a name-mode call resolves to: the override's
    column, or the first column when the override is empty. *)
Definition name_column {cell : Type} (df : DataFrame cell)
    (namecol : string) (k : nat) : Prop :=
  if Str.truthy (normalize namecol)
  then nth_error (normalized_columns df) k = Some (normalize namecol)
  else k = 0 /\ columns df <> [].

(** The values of column [k], one per row. *)
Definition column_values {cell : Type} (k : nat) (rws : list (list cell))
  : list cell :=
  flat_map (take [k]) rws.

(** A string that consists of whitespace only. *)
Fixpoint blank (s : string) : bool :=
  match s with
  | EmptyString => true
  | String c s' => Str.isspace c && blank s'
  end.





(** The two branches of the loader on the renamed table, named so that the
    statements can refer to them; [load_by_name] and [load_by_coord] below
    relate them to [load_targets_from_file]. *)
Definition names_branch {cell : Type} (df : DataFrame cell)
    (namecol : string) : M (targets cell) :=
  let namecol := normalize namecol in
  (if Str.truthy namecol
   then assert_ (in_columns namecol df) (msg_column namecol)
   else ret tt) ;;
  t <- (if Str.truthy namecol then getitem df namecol
        else c0 <- columns_item df 0 ;; getitem df c0) ;;
  l <- to_list t ;;
  ret (Names l).

Definition coords_branch {cell : Type} (df : DataFrame cell)
    (racol deccol : string) : M (targets cell) :=
  let racol := normalize racol in
  let deccol := normalize deccol in
  (if Str.truthy racol
   then assert_ (in_columns racol df) (msg_column racol)
   else ret tt) ;;
  (if Str.truthy deccol
   then assert_ (in_columns deccol df) (msg_column deccol)
   else ret tt) ;;
  coord <- (if Str.truthy racol && Str.truthy deccol
            then getitem_list df [racol; deccol]
            else getitem_list df (columns_slice df 2)) ;;
  l <- to_records_tolist coord ;;
  ret (Coords l).


(** * The rest of the notebook *)

(** ** Formatting and the program URL *)

(** [str(x)] *)
Definition py_str (v : pyvalue) : string :=
  match v with
  | PyStr s => s
  | PyInt n => NilEmpty.string_of_uint (N.to_uint n)
  | PyNone => "None"
  end.

(** [template.format(args...)] for a template whose replacement fields are
    all written [{}]: each field takes the next argument, [{{] and [}}]
    stand for one brace, any other brace is refused, and arguments left
    over are ignored. *)
Fixpoint format (template : string) (args : list pyvalue) : result string :=
  match template with
  | EmptyString => Ok EmptyString
  | String c rest =>
      if Ascii.eqb c "{" then
        match rest with
        | EmptyString => Raise ValueError
        | String c' rest' =>
            if Ascii.eqb c' "}" then
              match args with
              | [] => Raise IndexError
              | a :: args' =>
                  match format rest' args' with
                  | Ok s => Ok (py_str a ++ s)%string
                  | Raise e => Raise e
                  end
              end
            else if Ascii.eqb c' "{" then
              match format rest' args with
              | Ok s => Ok (String c s)
              | Raise e => Raise e
              end
            else Raise ValueError
        end
      else if Ascii.eqb c "}" then
        match rest with
        | EmptyString => Raise ValueError
        | String c' rest' =>
            if Ascii.eqb c' "}" then
              match format rest' args with
              | Ok s => Ok (String c s)
              | Raise e => Raise e
              end
            else Raise ValueError
        end
      else
        match format rest args with
        | Ok s => Ok (String c s)
        | Raise e => Raise e
        end
  end.

Definition APT_LINK : string :=
  "http://www.stsci.edu/cgi-bin/get-proposal-info?id={}&observatory=JWST".

(** [get_program_URL(program_id)]: [APT_LINK.format(program_id)] *)
Definition get_program_URL (program_id : pyvalue) : result string :=
  format APT_LINK [program_id].

(** The two fixed parts of a program URL. *)
Definition url_head : string :=
  "http://www.stsci.edu/cgi-bin/get-proposal-info?id=".
Definition url_tail : string := "&observatory=JWST".

(** ** The result table and its display *)

(** [x[:n]] on a [str]. *)
Fixpoint slice_to (n : nat) (x : string) : string :=
  match n, x with
  | S n', String c x' => String c (slice_to n' x')
  | _, _ => EmptyString
  end.

(** An astropy [Table], as far as the notebook touches it: the columns in
    order, each a name with its values; the cells it reads are [str]. *)
Definition Table : Type := dict (list string).

(** A step of [display_results] changes the table it was handed and ends
    normally or with an exception. *)
Definition Act (A : Type) : Type := Table -> Table * result A.

Definition act_ret {A : Type} (a : A) : Act A := fun obs => (obs, Ok a).

Definition act_bind {A B : Type} (m : Act A) (k : A -> Act B) : Act B :=
  fun obs =>
    match m obs with
    | (obs', Ok a) => k a obs'
    | (obs', Raise e) => (obs', Raise e)
    end.

(** [obs[name]] *)
Definition column (name : string) : Act (list string) :=
  fun obs =>
    match getitem_dict obs name with
    | Some values => (obs, Ok values)
    | None => (obs, Raise (KeyError name))
    end.

(** [obs[name] = values] *)
Definition set_column (name : string) (values : list string) : Act unit :=
  fun obs => (setitem obs name values, Ok tt).

(** [obs[name1, name2, ...]]: the first name that is no column is the key
    of the error. *)
Fixpoint columns_of (names : list string) : Act Table :=
  match names with
  | [] => act_ret []
  | name :: names' =>
      act_bind (column name) (fun values =>
      act_bind (columns_of names') (fun rest =>
      act_ret ((name, values) :: rest)))
  end.

(** [[f(x) for x in xs]] for an [f] that may raise. *)
Fixpoint comprehension {A B : Type} (f : A -> result B) (xs : list A)
  : result (list B) :=
  match xs with
  | [] => Ok []
  | x :: xs' =>
      match f x with
      | Raise e => Raise e
      | Ok y =>
          match comprehension f xs' with
          | Ok ys => Ok (y :: ys)
          | Raise e => Raise e
          end
      end
  end.

Definition act_lift {A : Type} (r : result A) : Act A := fun obs => (obs, r).

(** The columns [display_results] prints first. *)
Definition shown_columns : list string :=
  ["target_name"; "instrument_name"; "filters"; "dataproduct_type";
   "t_exptime"; "proposal_id"].

(** [display_results(obs)], as far as it acts on [obs], for a table whose
    cells are plain [str]: the column it adds, the column it rewrites, and
    the look-ups that can fail.  What [pprint] and [print] write is left
    to astropy and the terminal, and so are the failures of [pprint], of
    [table.unique] and of slicing on cells that are masked or not [str]. *)
Definition display_results : Act unit :=
  (* obs['proposal_URL'] = [get_program_URL(x) for x in obs['proposal_id']] *)
  act_bind (column "proposal_id") (fun ids =>
  act_bind (act_lift (comprehension (fun x => get_program_URL (PyStr x)) ids))
    (fun urls =>
  act_bind (set_column "proposal_URL" urls) (fun _ =>
  (* obs['obs_title'] = [x[:70] for x in obs['obs_title']] *)
  act_bind (column "obs_title") (fun titles =>
  act_bind (set_column "obs_title" (map (slice_to 70) titles)) (fun _ =>
  (* obs['obs_title'].info.format = '<' *)
  act_bind (column "obs_title") (fun _ =>
  (* obs['target_name', ..., 'proposal_id'].pprint(...) *)
  act_bind (columns_of shown_columns) (fun _ =>
  (* table.unique(obs, keys=['proposal_id'])['proposal_id','obs_title'] *)
  act_bind (columns_of ["proposal_id"; "obs_title"]) (fun _ =>
  (* for i in set(obs['proposal_URL']): print(i) *)
  act_bind (column "proposal_URL") (fun _ =>
  act_ret tt))))))))).

(** [for i in set(xs)] walks the distinct elements of [xs], each once, in
    an order Python does not fix: [iter xs] is the order of the walk. *)
Definition set_iteration (iter : list string -> list string) : Prop :=
  forall xs, NoDup (iter xs) /\ forall u, In u (iter xs) <-> In u xs.

(** [display_results(obs)] again, this time with the lines its last loop
    prints, [for i in set(obs['proposal_URL']): print(i)], as the result;
    the steps are those of [display_results]. *)
Definition display_results_printing (iter : list string -> list string)
  : Act (list string) :=
  act_bind (column "proposal_id") (fun ids =>
  act_bind (act_lift (comprehension (fun x => get_program_URL (PyStr x)) ids))
    (fun urls =>
  act_bind (set_column "proposal_URL" urls) (fun _ =>
  act_bind (column "obs_title") (fun titles =>
  act_bind (set_column "obs_title" (map (slice_to 70) titles)) (fun _ =>
  act_bind (column "obs_title") (fun _ =>
  act_bind (columns_of shown_columns) (fun _ =>
  act_bind (columns_of ["proposal_id"; "obs_title"]) (fun _ =>
  act_bind (column "proposal_URL") (fun urls' =>
  act_ret (iter urls')))))))))).

(** ** The archive queries *)






(** The URL of a program id given as a [str]. *)
Definition program_url (x : string) : string :=
  (url_head ++ x ++ url_tail)%string.

(** The table after the two assignments of [display_results]. *)
Definition displayed (obs : Table) (ids titles : list string) : Table :=
  setitem (setitem obs "proposal_URL" (map program_url ids))
    "obs_title" (map (slice_to 70) titles).


(** A string that does not begin with whitespace. *)
Definition head_kept (s : string) : bool :=
  match s with
  | EmptyString => true
  | String c _ => negb (Str.isspace c)
  end.

(** Columns [i] and [j] are the ones a coordinate-mode call resolves to:
    the two override columns when both overrides are given, the first two
    columns as soon as one is empty. *)
Definition coord_columns {cell : Type} (df : DataFrame cell)
    (racol deccol : string) (i j : nat) : Prop :=
  if Str.truthy (normalize racol) && Str.truthy (normalize deccol)
  then nth_error (normalized_columns df) i = Some (normalize racol)
       /\ nth_error (normalized_columns df) j = Some (normalize deccol)
       /\ i <> j
  else i = 0 /\ j = 1 /\ 2 <= length (columns df)
       /\ (normalize racol = EmptyString
           \/ In (normalize racol) (normalized_columns df))
       /\ (normalize deccol = EmptyString
           \/ In (normalize deccol) (normalized_columns df)).

(** ** More sample data *)

(** The titles of a result table such as the archive returns; the second
    one is longer than 70 characters. *)
Definition sample_titles : list string :=
  ["Transit Spectroscopy of TRAPPIST-1e";
   ("MIRI observations of transiting exoplanets, "
    ++ "thermal emission of TRAPPIST-1b")%string].

Definition sample_obs : Table :=
  [ ("target_name", ["TRAPPIST-1"; "TRAPPIST-1"]);
    ("instrument_name", ["NIRSPEC/SLIT"; "MIRI/IMAGE"]);
    ("filters", ["CLEAR;PRISM"; "F1500W"]);
    ("dataproduct_type", ["spectrum"; "image"]);
    ("t_exptime", ["7321.2"; "13983.4"]);
    ("proposal_id", ["1331"; "1177"]);
    ("obs_title", sample_titles) ].

(** A file in which two header names coincide once normalized. *)
Definition dup_csv : DataFrame string :=
  mkDataFrame ["Name"; "name "; "RA"]
    [ ["CX Tau"; "cx tau"; "67.910"]; ["M 8"; "m 8"; "270.92"] ].

(** A file with two columns named [to_list] once normalized. *)
Definition to_list_csv : DataFrame string :=
  mkDataFrame ["to_list"; "To_List "] [ ["CX Tau"; "M 8"] ].

(** A file with a single column. *)
Definition names_only_csv : DataFrame string :=
  mkDataFrame ["Target"] [ ["CX Tau"]; ["M 8"] ].

(** * Properties *)

(** ** The notebook's example calls *)

Example load_names :
  load_targets_from_file disk (PyStr "targets.csv") (PyStr "name")
    "target_name" "ra" "dec"
  = ([ReadCsv "targets.csv"],
     Ok (Names ["CX Tau"; "Fomalhaut"; "HL Tauri"; "M 8"; "HD 12345"])).
Proof. reflexivity. Qed.

Example load_coords :
  outcome (call_load_targets_from_file disk (PyStr "targets.csv")
     (mkKeywords (Some (PyStr "coord")) None None None))
  = Ok (Coords [ [" 67.910"; " 18.2336"]; [" 67.910"; " 18.2336"];
                 [" 67.910"; " 18.2336"]; [" 67.910"; " 18.2336"];
                 [" 67.910"; " 18.2336"] ]).
Proof. reflexivity. Qed.

(** ** Strings *)

Module StrFacts.
Import Str.
Local Open Scope string_scope.

Lemma isspace_lower_char (c : ascii) :
  isspace (lower_char c) = isspace c.
Proof.
  destruct c as [[] [] [] [] [] [] [] []]; reflexivity.
Qed.

Lemma lstrip_lower (s : string) : lstrip (lower s) = lower (lstrip s).
Proof.
  induction s as [|c s IH]; cbn [lower lstrip]; [reflexivity|].
  rewrite isspace_lower_char.
  destruct (isspace c); [exact IH | reflexivity].
Qed.

Lemma rstrip_lower (s : string) : rstrip (lower s) = lower (rstrip s).
Proof.
  induction s as [|c s IH]; cbn [lower rstrip]; [reflexivity|].
  rewrite IH, isspace_lower_char.
  destruct (rstrip s); cbn [lower]; [|reflexivity].
  destruct (isspace c); reflexivity.
Qed.

Lemma strip_lower (s : string) : strip (lower s) = lower (strip s).
Proof.
  unfold strip. now rewrite lstrip_lower, rstrip_lower.
Qed.




Lemma lstrip_blank (l : string) : blank l = true -> lstrip l = EmptyString.
Proof.
  induction l as [|c l IH]; cbn [blank lstrip]; [reflexivity|].
  intros H. apply andb_prop in H as [Hc Hl]. rewrite Hc. now apply IH.
Qed.







Lemma endswith_app (pre suffix : string) :
  endswith (pre ++ suffix) suffix = true.
Proof.
  induction pre as [|c pre IH]; cbn [append].
  - destruct suffix; cbn [endswith]; now rewrite String.eqb_refl.
  - cbn [endswith]. rewrite IH. now destruct (String.eqb _ _).
Qed.

(** [endswith] is the suffix relation. *)
Lemma endswith_spec (s suffix : string) :
  endswith s suffix = true <-> exists pre, s = pre ++ suffix.
Proof.
  split.
  - induction s as [|c s IH]; cbn [endswith].
    + destruct (String.eqb EmptyString suffix) eqn:E; [|discriminate].
      apply String.eqb_eq in E. intros _. now exists EmptyString.
    + destruct (String.eqb (String c s) suffix) eqn:E.
      * apply String.eqb_eq in E. intros _. now exists EmptyString.
      * intros H. destruct (IH H) as [pre ->].
        now exists (String c pre).
  - intros [pre ->]. apply endswith_app.
Qed.

Lemma truthy_false (s : string) : truthy s = false <-> s = EmptyString.
Proof. destruct s; cbn; split; congruence. Qed.

Lemma truthy_true (s : string) : truthy s = true <-> s <> EmptyString.
Proof. destruct s; cbn; split; congruence. Qed.

End StrFacts.

(** ** Tables *)

Section FrameFacts.

Context {cell : Type}.
Implicit Types (df : DataFrame cell) (r : list cell).

Lemma in_columns_In (label : string) df :
  in_columns label df = true <-> In label (columns df).
Proof.
  unfold in_columns. rewrite existsb_exists. split.
  - intros [x [Hx E]]. apply String.eqb_eq in E. now subst.
  - intros H. exists label. split; [exact H | apply String.eqb_refl].
Qed.

Lemma in_columns_false (label : string) df :
  in_columns label df = false <-> ~ In label (columns df).
Proof.
  rewrite <- in_columns_In. destruct (in_columns label df); split;
    congruence.
Qed.

Lemma positions_from_absent (i : nat) (label : string) cols :
  ~ In label cols -> positions_from i label cols = [].
Proof.
  revert i; induction cols as [|c cols IH]; intros i H;
    cbn [positions_from]; [reflexivity|].
  destruct (String.eqb c label) eqn:E.
  - apply String.eqb_eq in E. exfalso. apply H. now left.
  - apply IH. intros Hin. apply H. now right.
Qed.

Lemma positions_from_unique (i k : nat) (label : string) cols :
  NoDup cols -> nth_error cols k = Some label ->
  positions_from i label cols = [i + k].
Proof.
  revert i k; induction cols as [|c cols IH]; intros i k Hnd Hk.
  - now destruct k.
  - inversion Hnd as [|? ? Hc Hnd']; subst. cbn [positions_from].
    destruct k as [|k]; cbn [nth_error] in Hk.
    + injection Hk as ->. rewrite String.eqb_refl.
      rewrite (positions_from_absent _ _ _ Hc). now rewrite Nat.add_0_r.
    + destruct (String.eqb c label) eqn:E.
      * apply String.eqb_eq in E. subst c. exfalso. apply Hc.
        eapply nth_error_In; eassumption.
      * rewrite (IH (S i) k Hnd' Hk). f_equal. lia.
  Qed.

Lemma positions_unique (k : nat) (label : string) df :
  NoDup (columns df) -> nth_error (columns df) k = Some label ->
  positions label df = [k].
Proof.
  intros Hnd Hk. unfold positions.
  now rewrite (positions_from_unique 0 k label _ Hnd Hk).
Qed.

Lemma distinct_NoDup (l : list string) : NoDup l -> distinct l = true.
Proof.
  induction 1 as [|x l Hx _ IH]; cbn [distinct]; [reflexivity|].
  rewrite IH, andb_true_r. apply negb_true_iff.
  destruct (existsb (String.eqb x) l) eqn:E; [|reflexivity].
  apply existsb_exists in E as [y [Hy E]].
  apply String.eqb_eq in E. now subst.
Qed.

Lemma take_one {A : Type} (k : nat) (l : list A) (c : A) :
  nth_error l k = Some c -> take [k] l = [c].
Proof. intros H. unfold take. cbn. now rewrite H. Qed.

Lemma take_two {A : Type} (i j : nat) (l : list A) (a b : A) :
  nth_error l i = Some a -> nth_error l j = Some b ->
  take [i; j] l = [a; b].
Proof. intros Hi Hj. unfold take. cbn. now rewrite Hi, Hj. Qed.

Lemma take_first_two {A : Type} (l : list A) : take [0; 1] l = firstn 2 l.
Proof. now destruct l as [|a [|b l]]. Qed.

(** In a rectangular table, column [k] has one value per row, in row
    order. *)
Lemma column_values_rows (k ncols : nat) (rws : list (list cell)) :
  Forall (fun r => length r = ncols) rws -> k < ncols ->
  length (column_values k rws) = length rws
  /\ forall i r, nth_error rws i = Some r ->
       nth_error (column_values k rws) i = nth_error r k
       /\ nth_error r k <> None.
Proof.
  intros Hrect Hk. induction Hrect as [|r rws Hr _ [IHlen IHnth]].
  - split; [reflexivity|]. intros [|i] r H; discriminate.
  - assert (Hsome : nth_error r k <> None)
      by (apply nth_error_Some; lia).
    destruct (nth_error r k) as [c|] eqn:E; [|congruence].
    unfold column_values in *. cbn [flat_map].
    rewrite (take_one k r c E). cbn [app length]. split; [now f_equal|].
    intros [|i] r' H; cbn [nth_error] in *.
    + injection H as <-. rewrite E. split; congruence.
    + now apply IHnth.
Qed.

Lemma rename_columns f df : columns (rename f df) = map f (columns df).
Proof. reflexivity. Qed.

End FrameFacts.

(** ** The loader, step by step *)

Section LoaderFacts.

Context {cell : Type}.
Implicit Types (df : DataFrame cell) (fs : storage cell).

Lemma bind_pure {A B : Type} (a : A) (k : A -> M B) :
  bind (ret a) k = k a.
Proof. unfold bind, ret. cbn. now destruct (k a). Qed.

Lemma getitem_trace df label : trace (getitem df label) = [].
Proof.
  unfold getitem. now destruct (positions label df) as [|p [|q ps]].
Qed.

Lemma positions_of_trace (labels : list string) df :
  trace (positions_of labels df) = [].
Proof.
  induction labels as [|l ls IH]; cbn [positions_of]; [reflexivity|].
  destruct (positions l df); [reflexivity|].
  destruct (positions_of ls df) as [t [ps|e]]; cbn in *; now subst.
Qed.

Lemma getitem_list_trace df labels : trace (getitem_list df labels) = [].
Proof.
  unfold getitem_list. pose proof (positions_of_trace labels df) as H.
  destruct (positions_of labels df) as [t [ps|e]]; cbn in *; now subst.
Qed.

Lemma names_branch_trace df n : trace (names_branch df n) = [].
Proof.
  unfold names_branch.
  destruct (Str.truthy (normalize n)).
  - destruct (in_columns (normalize n) df); cbn [assert_]; [|reflexivity].
    rewrite bind_pure.
    pose proof (getitem_trace df (normalize n)) as H.
    destruct (getitem df (normalize n)) as [t [[v|d]|e]]; cbn in *; subst;
      try reflexivity.
    destruct (in_columns "to_list" d); reflexivity.
  - rewrite bind_pure. unfold columns_item.
    destruct (nth_error (columns df) 0) as [c0|]; [|reflexivity].
    rewrite bind_pure.
    pose proof (getitem_trace df c0) as H.
    destruct (getitem df c0) as [t [[v|d]|e]]; cbn in *; subst;
      try reflexivity.
    destruct (in_columns "to_list" d); reflexivity.
Qed.

Lemma coords_branch_trace df r d : trace (coords_branch df r d) = [].
Proof.
  unfold coords_branch.
  set (g := if Str.truthy (normalize r) && Str.truthy (normalize d)
            then _ else _).
  assert (Hg : trace g = [])
    by (subst g; destruct (_ && _); apply getitem_list_trace).
  clearbody g.
  destruct (Str.truthy (normalize r));
    [destruct (in_columns (normalize r) df); cbn [assert_]; [|reflexivity]|];
    rewrite bind_pure;
    (destruct (Str.truthy (normalize d));
    [destruct (in_columns (normalize d) df); cbn [assert_]; [|reflexivity]|]);
    rewrite bind_pure;
    destruct g as [t [c|e]]; cbn in *; subst; try reflexivity;
    unfold to_records_tolist; destruct (distinct (columns c)); reflexivity.
Qed.

Lemma bind_read {B : Type} fs path df (k : DataFrame cell -> M B) :
  fs path = inr df -> trace (k df) = [] ->
  bind (read_csv fs path) k = ([ReadCsv path], outcome (k df)).
Proof.
  intros Hfs Hk. unfold bind, read_csv. rewrite Hfs.
  destruct (k df) as [t o]. cbn in *. now subst.
Qed.

Lemma load_by_name fs path df n r d :
  fs path = inr df -> Str.endswith path ".csv" = true ->
  load_targets_from_file fs (PyStr path) (PyStr "name") n r d
  = ([ReadCsv path], outcome (names_branch (rename normalize df) n)).
Proof.
  intros Hfs Hend. unfold load_targets_from_file, filename_endswith.
  cbn [isinstance_str assert_ py_in existsb py_eq String.eqb Ascii.eqb
       Bool.eqb orb].
  rewrite !bind_pure, Hend. cbn [assert_]. rewrite bind_pure.
  rewrite (bind_read fs path df _ Hfs); [reflexivity|].
  apply names_branch_trace.
Qed.

Lemma load_by_coord fs path df n r d :
  fs path = inr df -> Str.endswith path ".csv" = true ->
  load_targets_from_file fs (PyStr path) (PyStr "coord") n r d
  = ([ReadCsv path], outcome (coords_branch (rename normalize df) r d)).
Proof.
  intros Hfs Hend. unfold load_targets_from_file, filename_endswith.
  cbn [isinstance_str assert_ py_in existsb py_eq String.eqb Ascii.eqb
       Bool.eqb orb].
  rewrite !bind_pure, Hend. cbn [assert_]. rewrite bind_pure.
  rewrite (bind_read fs path df _ Hfs); [reflexivity|].
  apply coords_branch_trace.
Qed.

Lemma load_read_failure fs path e load_by n r d :
  fs path = inl e -> Str.endswith path ".csv" = true ->
  py_in load_by [PyStr "name"; PyStr "coord"] = true ->
  load_targets_from_file fs (PyStr path) load_by n r d
  = ([ReadCsv path], Raise (ReadFailure e)).
Proof.
  intros Hfs Hend Hmode. unfold load_targets_from_file, filename_endswith.
  rewrite Hmode. cbn [isinstance_str assert_].
  rewrite !bind_pure, Hend. cbn [assert_]. rewrite bind_pure.
  unfold bind, read_csv. now rewrite Hfs.
Qed.

Lemma load_not_str fs filename load_by n r d :
  isinstance_str filename = false ->
  load_targets_from_file fs filename load_by n r d
  = ([], Raise (AssertionError msg_filename)).
Proof.
  intros H. unfold load_targets_from_file. now rewrite H.
Qed.

Lemma load_bad_mode fs path load_by n r d :
  py_in load_by [PyStr "name"; PyStr "coord"] = false ->
  load_targets_from_file fs (PyStr path) load_by n r d
  = ([], Raise (AssertionError msg_load_by)).
Proof.
  intros H. unfold load_targets_from_file. now rewrite H.
Qed.

Lemma load_bad_extension fs path load_by n r d :
  py_in load_by [PyStr "name"; PyStr "coord"] = true ->
  Str.endswith path ".csv" = false ->
  load_targets_from_file fs (PyStr path) load_by n r d
  = ([], Raise (AssertionError msg_csv)).
Proof.
  intros H E. unfold load_targets_from_file, filename_endswith.
  rewrite H. cbn [isinstance_str assert_]. rewrite !bind_pure, E.
  reflexivity.
Qed.

Lemma names_missing df n :
  normalize n <> EmptyString -> ~ In (normalize n) (columns df) ->
  outcome (names_branch df n)
  = Raise (AssertionError (msg_column (normalize n))).
Proof.
  intros Hn Hin. unfold names_branch.
  apply StrFacts.truthy_true in Hn. rewrite Hn.
  apply in_columns_false in Hin. now rewrite Hin.
Qed.

Lemma names_found df n (k : nat) :
  normalize n <> EmptyString -> NoDup (columns df) ->
  nth_error (columns df) k = Some (normalize n) ->
  outcome (names_branch df n) = Ok (Names (column_values k (rows df))).
Proof.
  intros Hn Hnd Hk. unfold names_branch.
  apply StrFacts.truthy_true in Hn. rewrite Hn.
  assert (Hin : in_columns (normalize n) df = true)
    by (apply in_columns_In; eapply nth_error_In; eassumption).
  rewrite Hin. cbn [assert_]. rewrite bind_pure.
  unfold getitem. rewrite (positions_unique k _ df Hnd Hk).
  now rewrite !bind_pure.
Qed.

Lemma names_positional df n :
  normalize n = EmptyString -> NoDup (columns df) -> columns df <> [] ->
  outcome (names_branch df n) = Ok (Names (column_values 0 (rows df))).
Proof.
  intros Hn Hnd Hne. unfold names_branch.
  apply StrFacts.truthy_false in Hn. rewrite Hn, bind_pure.
  unfold columns_item.
  destruct (columns df) as [|c0 cols] eqn:E; [congruence|].
  cbn [nth_error]. rewrite bind_pure. unfold getitem.
  rewrite (positions_unique 0 c0 df); [now rewrite !bind_pure | |];
    now rewrite E.
Qed.

Lemma coords_ra_missing df r d :
  normalize r <> EmptyString -> ~ In (normalize r) (columns df) ->
  outcome (coords_branch df r d)
  = Raise (AssertionError (msg_column (normalize r))).
Proof.
  intros Hr Hin. unfold coords_branch.
  apply StrFacts.truthy_true in Hr. rewrite Hr.
  apply in_columns_false in Hin. now rewrite Hin.
Qed.

Lemma ra_check_passes df r :
  normalize r = EmptyString \/ In (normalize r) (columns df) ->
  (if Str.truthy (normalize r)
   then assert_ (in_columns (normalize r) df) (msg_column (normalize r))
   else ret tt) = ret tt.
Proof.
  intros [H|H].
  - apply StrFacts.truthy_false in H. now rewrite H.
  - apply in_columns_In in H. rewrite H. now destruct (Str.truthy _).
Qed.

Lemma coords_dec_missing df r d :
  normalize r = EmptyString \/ In (normalize r) (columns df) ->
  normalize d <> EmptyString -> ~ In (normalize d) (columns df) ->
  outcome (coords_branch df r d)
  = Raise (AssertionError (msg_column (normalize d))).
Proof.
  intros Hr Hd Hin. unfold coords_branch.
  rewrite (ra_check_passes df r Hr), bind_pure.
  apply StrFacts.truthy_true in Hd. rewrite Hd.
  apply in_columns_false in Hin. now rewrite Hin.
Qed.

Lemma coords_found df r d (i j : nat) :
  normalize r <> EmptyString -> normalize d <> EmptyString ->
  NoDup (columns df) ->
  nth_error (columns df) i = Some (normalize r) ->
  nth_error (columns df) j = Some (normalize d) ->
  i <> j ->
  outcome (coords_branch df r d)
  = Ok (Coords (map (take [i; j]) (rows df))).
Proof.
  intros Hr Hd Hnd Hi Hj Hij. unfold coords_branch.
  rewrite (ra_check_passes df r), bind_pure
    by (right; eapply nth_error_In; eassumption).
  rewrite (ra_check_passes df d), bind_pure
    by (right; eapply nth_error_In; eassumption).
  apply StrFacts.truthy_true in Hr, Hd. rewrite Hr, Hd. cbn [andb].
  unfold getitem_list. cbn [positions_of].
  rewrite (positions_unique i _ df Hnd Hi), (positions_unique j _ df Hnd Hj).
  cbn iota. rewrite !bind_pure. cbn [app].
  unfold to_records_tolist, select. cbn [columns rows].
 rewrite (take_two i j _ _ _ Hi Hj).
  assert (Hne : String.eqb (normalize r) (normalize d) = false).
  { apply String.eqb_neq. intros E. apply Hij.
    rewrite E in Hi. eapply NoDup_nth_error; try eassumption.
    - apply nth_error_Some. congruence.
    - congruence. }
  cbn [distinct existsb]. rewrite Hne. cbn. reflexivity.
Qed.

Lemma coords_positional df r d :
  normalize r = EmptyString \/ normalize d = EmptyString ->
  normalize r = EmptyString \/ In (normalize r) (columns df) ->
  normalize d = EmptyString \/ In (normalize d) (columns df) ->
  NoDup (columns df) -> 2 <= length (columns df) ->
  outcome (coords_branch df r d)
  = Ok (Coords (map (firstn 2) (rows df))).
Proof.
  intros Hempty Hr Hd Hnd Hlen. unfold coords_branch.
  rewrite (ra_check_passes df r Hr), bind_pure.
  rewrite (ra_check_passes df d Hd), bind_pure.
  assert (Hb : Str.truthy (normalize r) && Str.truthy (normalize d)
               = false).
  { destruct Hempty as [H|H]; apply StrFacts.truthy_false in H;
      rewrite H; [reflexivity | apply andb_false_r]. }
  rewrite Hb. unfold getitem_list, columns_slice.
  destruct (columns df) as [|c0 [|c1 cols]] eqn:E; cbn in Hlen; try lia.
  cbn [firstn positions_of].
  rewrite (positions_unique 0 c0 df), (positions_unique 1 c1 df);
    try (now rewrite E).
  rewrite !bind_pure. unfold to_records_tolist, select. rewrite E.
  cbn [columns rows take flat_map nth_error app].
  assert (Hne : String.eqb c0 c1 = false).
  { apply String.eqb_neq. intros ->. inversion Hnd as [|? ? Hc _].
    apply Hc. now left. }
  cbn [distinct existsb]. rewrite Hne. cbn [orb negb andb].
  rewrite bind_pure. cbn [outcome ret snd]. do 2 f_equal.
  apply map_ext. intros a. apply (take_first_two a).
Qed.

End LoaderFacts.

(** ** Where an assertion failure can come from *)

Section ModeFacts.

Lemma py_eq_spec (a b : pyvalue) : py_eq a b = true <-> a = b.
Proof.
  destruct a, b; cbn [py_eq]; split; try congruence.
  - intros H. apply String.eqb_eq in H. congruence.
  - intros [= ->]. apply String.eqb_refl.
  - intros H. apply N.eqb_eq in H. congruence.
  - intros [= ->]. apply N.eqb_refl.
Qed.

Lemma py_in_modes (v : pyvalue) :
  py_in v [PyStr "name"; PyStr "coord"] = true <-> recognized_mode v.
Proof.
  unfold py_in, recognized_mode. cbn [existsb].
  rewrite orb_false_r, orb_true_iff, !py_eq_spec. tauto.
Qed.

Lemma py_in_modes_false (v : pyvalue) :
  py_in v [PyStr "name"; PyStr "coord"] = false <-> ~ recognized_mode v.
Proof.
  rewrite <- py_in_modes.
  destruct (py_in v _); split; congruence.
Qed.

Lemma msg_column_not_msg_load_by (x : string) :
  msg_column x <> msg_load_by.
Proof. discriminate. Qed.

End ModeFacts.

Section Outcomes.
Context {cell : Type}.
Implicit Types (df : DataFrame cell) (fs : storage cell).

Lemma names_branch_assertion df n (m : string) :
  outcome (names_branch df n) = Raise (AssertionError m) ->
  m = msg_column (normalize n).
Proof.
  unfold names_branch.
  destruct (Str.truthy (normalize n)).
  - destruct (in_columns (normalize n) df); cbn [assert_];
      [|now intros [= <-]].
    rewrite bind_pure. unfold getitem.
    destruct (positions (normalize n) df) as [|p [|q ps]];
      try discriminate.
    rewrite bind_pure. cbn [to_list].
    destruct (in_columns "to_list" _); discriminate.
  - rewrite bind_pure. unfold columns_item.
    destruct (nth_error (columns df) 0) as [c0|]; [|discriminate].
    rewrite bind_pure. unfold getitem.
    destruct (positions c0 df) as [|p [|q ps]]; try discriminate.
    rewrite bind_pure. cbn [to_list].
    destruct (in_columns "to_list" _); discriminate.
Qed.

Lemma getitem_list_no_assertion df labels (m : string) :
  outcome (getitem_list df labels) <> Raise (AssertionError m).
Proof.
  unfold getitem_list.
  assert (H : outcome (positions_of labels df) <> Raise (AssertionError m)).
  { induction labels as [|l ls IH]; cbn [positions_of]; [discriminate|].
    destruct (positions l df); [discriminate|].
    destruct (positions_of ls df) as [t [ps|e]]; cbn in *;
      [discriminate | exact IH]. }
  destruct (positions_of labels df) as [t [ps|e]]; cbn in *;
    [discriminate | intros [= ->]; now apply H].
Qed.

Lemma coords_branch_assertion df r d (m : string) :
  outcome (coords_branch df r d) = Raise (AssertionError m) ->
  m = msg_column (normalize r) \/ m = msg_column (normalize d).
Proof.
  unfold coords_branch.
  set (g := if Str.truthy (normalize r) && Str.truthy (normalize d)
            then _ else _).
  assert (Hg : outcome g <> Raise (AssertionError m))
    by (subst g; destruct (_ && _); apply getitem_list_no_assertion).
  clearbody g.
  destruct (Str.truthy (normalize r));
    [destruct (in_columns (normalize r) df); cbn [assert_];
     [|intros [= <-]; now left]|];
    rewrite bind_pure;
    (destruct (Str.truthy (normalize d));
     [destruct (in_columns (normalize d) df); cbn [assert_];
      [|intros [= <-]; now right]|]);
    rewrite bind_pure;
    destruct g as [t [c|e]]; cbn in *; try (intros H; congruence);
    unfold to_records_tolist; destruct (distinct (columns c)); discriminate.
Qed.

End Outcomes.

(** ** The dictionary *)

Section DictFacts.

Context {V : Type}.
Implicit Types (d : dict V) (k x : string).

Lemma mem_In x (l : list string) : mem x l = true <-> In x l.
Proof.
  unfold mem. rewrite existsb_exists. split.
  - intros [y [Hy E]]. apply String.eqb_eq in E. now subst.
  - intros H. exists x. split; [exact H | apply String.eqb_refl].
Qed.

Lemma keys_setitem d k (v : V) :
  keys (setitem d k v) = if mem k (keys d) then keys d else keys d ++ [k].
Proof.
  induction d as [|[k' v'] d IH]; cbn [setitem keys map fst mem existsb];
    [reflexivity|].
  destruct (String.eqb k k') eqn:E; cbn [orb map fst]; [reflexivity|].
  fold (keys d). fold (keys (setitem d k v)). fold (mem k (keys d)).
  rewrite IH. now destruct (mem k (keys d)).
Qed.

Lemma keys_setitem_present d k (v : V) :
  In k (keys d) -> keys (setitem d k v) = keys d.
Proof.
  intros H. rewrite keys_setitem. apply mem_In in H. now rewrite H.
Qed.

End DictFacts.

Lemma filter_filter_implied {A : Type} (p q : A -> bool) (l : list A) :
  (forall y, p y = true -> q y = true) ->
  filter p (filter q l) = filter p l.
Proof.
  intros H. induction l as [|a l IH]; cbn [filter]; [reflexivity|].
  destruct (q a) eqn:Q; cbn [filter].
  - now rewrite IH.
  - destruct (p a) eqn:P; [|exact IH]. rewrite (H a P) in Q. discriminate.
Qed.

Lemma filter_filter_and {A : Type} (p q : A -> bool) (l : list A) :
  filter p (filter q l) = filter (fun y => q y && p y) l.
Proof.
  induction l as [|a l IH]; cbn [filter]; [reflexivity|].
  destruct (q a); cbn [filter andb]; [|exact IH].
  destruct (p a); now rewrite IH.
Qed.

Lemma keys_fold (names : list string) (d : dict nat) :
  keys (fold_left (fun d name => setitem d name 0) names d)
  = keys d ++ filter (fun y => negb (mem y (keys d))) (first_occurrences names).
Proof.
  revert d; induction names as [|x names IH]; intros d;
    cbn [fold_left first_occurrences filter].
  - now rewrite app_nil_r.
  - rewrite IH, keys_setitem. destruct (mem x (keys d)) eqn:E; cbn [negb].
    + f_equal. symmetry. apply filter_filter_implied.
      intros y Hy. apply negb_true_iff. apply String.eqb_neq. intros ->.
      rewrite E in Hy. discriminate.
    + rewrite <- app_assoc. cbn [app]. do 2 f_equal.
      rewrite filter_filter_and. apply filter_ext. intros y.
      unfold mem. rewrite existsb_app. cbn [existsb].
      rewrite orb_false_r, negb_orb. apply andb_comm.
Qed.

Lemma keys_zero_counts (names : list string) :
  keys (zero_counts names) = first_occurrences names.
Proof.
  unfold zero_counts. rewrite keys_fold. cbn [keys map app].
  induction (first_occurrences names) as [|a l IH]; cbn; [reflexivity|].
  now f_equal.
Qed.

Lemma keys_count_loop (count : string -> nat) (steps i : nat) (d : dict nat) :
  keys (count_loop count steps i d) = keys d.
Proof.
  revert i d; induction steps as [|steps IH]; intros i d;
    cbn [count_loop]; [reflexivity|].
  destruct (nth_error d i) as [[t n]|] eqn:E; [|reflexivity].
  rewrite IH. apply keys_setitem_present.
  apply nth_error_In in E. unfold keys. apply in_map_iff.
  now exists (t, n).
Qed.

Lemma first_occurrences_In (x : string) (l : list string) :
  In x (first_occurrences l) <-> In x l.
Proof.
  induction l as [|y l IH]; cbn [first_occurrences In]; [tauto|].
  rewrite filter_In, IH, negb_true_iff, String.eqb_neq.
  destruct (string_dec y x); intuition congruence.
Qed.

Lemma first_occurrences_NoDup (l : list string) : NoDup (first_occurrences l).
Proof.
  induction l as [|y l IH]; cbn [first_occurrences]; constructor.
  - rewrite filter_In, String.eqb_refl. intros [_ H]. discriminate.
  - now apply NoDup_filter.
Qed.

Lemma index_of_filter (p : string -> bool) (a b : string) (l : list string) :
  p a = true -> p b = true -> In a l -> In b l ->
  (index_of a (filter p l) < index_of b (filter p l)
   <-> index_of a l < index_of b l).
Proof.
  intros Pa Pb. induction l as [|y l IH]; cbn [In]; [tauto|].
  intros Ha Hb. cbn [filter index_of].
  destruct (String.eqb y a) eqn:Ea, (String.eqb y b) eqn:Eb.
  - apply String.eqb_eq in Ea, Eb. subst. rewrite Pa. cbn [index_of].
    rewrite String.eqb_refl. lia.
  - apply String.eqb_eq in Ea. subst. rewrite Pa. cbn [index_of].
    rewrite String.eqb_refl, Eb. lia.
  - apply String.eqb_eq in Eb. subst. rewrite Pb. cbn [index_of].
    rewrite String.eqb_refl, Ea. lia.
  - apply String.eqb_neq in Ea as Na. apply String.eqb_neq in Eb as Nb.
    assert (Ha' : In a l) by (destruct Ha; congruence).
    assert (Hb' : In b l) by (destruct Hb; congruence).
    specialize (IH Ha' Hb').
    destruct (p y); cbn [index_of]; [rewrite Ea, Eb|]; lia.
Qed.

Lemma index_of_first_occurrences (a b : string) (l : list string) :
  In a l -> In b l ->
  (index_of a (first_occurrences l) < index_of b (first_occurrences l)
   <-> index_of a l < index_of b l).
Proof.
  induction l as [|y l IH]; cbn [In]; [tauto|].
  intros Ha Hb. cbn [first_occurrences index_of].
  destruct (String.eqb y a) eqn:Ea, (String.eqb y b) eqn:Eb; try lia.
  apply String.eqb_neq in Ea as Na. apply String.eqb_neq in Eb as Nb.
  assert (Ha' : In a l) by (destruct Ha; congruence).
  assert (Hb' : In b l) by (destruct Hb; congruence).
  rewrite <- !Nat.succ_lt_mono, <- (IH Ha' Hb').
  apply index_of_filter.
  - apply negb_true_iff, String.eqb_neq. congruence.
  - apply negb_true_iff, String.eqb_neq. congruence.
  - now apply first_occurrences_In.
  - now apply first_occurrences_In.
Qed.

(** ** The claims *)


Ltac valid_sample :=
  split;
  [ repeat constructor
  | vm_compute; repeat (constructor; [cbn; intuition discriminate|]);
    constructor ].

Section Claims.

Context {cell : Type}.
Implicit Types (df : DataFrame cell) (fs : storage cell).

Lemma normalized_columns_length df :
  length (normalized_columns df) = length (columns df).
Proof. apply length_map. Qed.

(** C4. On a valid table, a name-mode load returns one value per data
    row, in row order: the value at place [i] is the cell of row [i] in
    the resolved name column, so that no row is dropped and duplicates
    stay. *)
Theorem name_mode_keeps_rows fs (path : string) df
    (namecol racol deccol : string) (k : nat) :
  fs path = inr df ->
  Str.endswith path ".csv" = true ->
  valid_table df ->
  name_column df namecol k ->
  exists l,
    load_targets_from_file fs (PyStr path) (PyStr "name")
      namecol racol deccol
    = ([ReadCsv path], Ok (Names l))
    /\ length l = length (rows df)
    /\ forall i r, nth_error (rows df) i = Some r ->
         nth_error l i = nth_error r k /\ nth_error r k <> None.
Proof.
  intros Hfs Hend [Hrect Hnd] Hcol.
  rewrite (load_by_name fs path df _ _ _ Hfs Hend).
  exists (column_values k (rows df)).
  unfold name_column in Hcol.
  destruct (Str.truthy (normalize namecol)) eqn:T.
  - split.
    + f_equal. apply (names_found (rename normalize df) namecol k);
        [now apply StrFacts.truthy_true | exact Hnd | exact Hcol].
    + apply (column_values_rows k (length (columns df)));
        [exact Hrect|].
      rewrite <- normalized_columns_length. apply nth_error_Some.
      congruence.
  - destruct Hcol as [-> Hne]. split.
    + f_equal. apply (names_positional (rename normalize df) namecol);
        [now apply StrFacts.truthy_false | exact Hnd |].
      rewrite rename_columns. now destruct (columns df).
    + apply (column_values_rows 0 (length (columns df)));
        [exact Hrect|].
      destruct (columns df); [congruence | cbn; lia].
Qed.

(** C3. A non-empty normalized override that is not among the normalized
    header names fails the load with the assertion error whose text is
    [csv file does not contain column ] followed by the normalized name of
    that column.  The file has been read; the rows play no part in the
    result and no value is returned. *)
Theorem missing_override_column_fails fs (path : string)
    (cols : list string) (rws : list (list cell))
    (namecol racol deccol : string) :
  fs path = inr (mkDataFrame cols rws) ->
  Str.endswith path ".csv" = true ->
  (normalize namecol <> EmptyString ->
   ~ In (normalize namecol) (map normalize cols) ->
   load_targets_from_file fs (PyStr path) (PyStr "name")
     namecol racol deccol
   = ([ReadCsv path],
      Raise (AssertionError
               ("csv file does not contain column "
                ++ normalize namecol)%string)))
  /\ (normalize racol <> EmptyString ->
      ~ In (normalize racol) (map normalize cols) ->
      load_targets_from_file fs (PyStr path) (PyStr "coord")
        namecol racol deccol
      = ([ReadCsv path],
         Raise (AssertionError
                  ("csv file does not contain column "
                   ++ normalize racol)%string)))
  /\ (normalize racol = EmptyString
      \/ In (normalize racol) (map normalize cols) ->
      normalize deccol <> EmptyString ->
      ~ In (normalize deccol) (map normalize cols) ->
      load_targets_from_file fs (PyStr path) (PyStr "coord")
        namecol racol deccol
      = ([ReadCsv path],
         Raise (AssertionError
                  ("csv file does not contain column "
                   ++ normalize deccol)%string))).
Proof.
  intros Hfs Hend. repeat split.
  - intros Hn Hin. rewrite (load_by_name fs path _ _ _ _ Hfs Hend).
    f_equal.
    rewrite (names_missing (rename normalize (mkDataFrame cols rws))
               namecol Hn Hin).
    reflexivity.
  - intros Hr Hin. rewrite (load_by_coord fs path _ _ _ _ Hfs Hend).
    f_equal.
    rewrite (coords_ra_missing (rename normalize (mkDataFrame cols rws))
               racol deccol Hr Hin).
    reflexivity.
  - intros Hr Hd Hin. rewrite (load_by_coord fs path _ _ _ _ Hfs Hend).
    f_equal.
    rewrite (coords_dec_missing (rename normalize (mkDataFrame cols rws))
               racol deccol Hr Hd Hin).
    reflexivity.
Qed.

(** C5. A filename that does not end in [.csv] fails the load with an
    assertion error before the file is read: no file access is made, and
    the result is the same whatever the storage holds. *)
Theorem non_csv_filename_fails fs fs' (path : string)
    (load_by : pyvalue) (namecol racol deccol : string) :
  ~ (exists pre, path = (pre ++ ".csv")%string) ->
  (exists msg,
     load_targets_from_file fs (PyStr path) load_by namecol racol deccol
     = ([], Raise (AssertionError msg)))
  /\ load_targets_from_file fs (PyStr path) load_by namecol racol deccol
     = load_targets_from_file fs' (PyStr path) load_by namecol racol
         deccol.
Proof.
  intros Hext.
  assert (E : Str.endswith path ".csv" = false).
  { destruct (Str.endswith path ".csv") eqn:E; [|reflexivity].
    apply StrFacts.endswith_spec in E. contradiction. }
  destruct (py_in load_by [PyStr "name"; PyStr "coord"]) eqn:Hmode.
  - rewrite !(load_bad_extension _ path load_by _ _ _ Hmode E).
    split; [now exists msg_csv | reflexivity].
  - rewrite !(load_bad_mode _ path load_by _ _ _ Hmode).
    split; [now exists msg_load_by | reflexivity].
Qed.

(** C6. A [load_by] other than ["name"] and ["coord"] fails the load with
    an assertion error (the mode message, once the filename is a string),
    and a [load_by] that is one of the two never fails with the mode
    message. *)
Theorem load_by_is_checked fs (filename load_by : pyvalue)
    (namecol racol deccol : string) :
  (~ recognized_mode load_by ->
   exists msg,
     load_targets_from_file fs filename load_by namecol racol deccol
     = ([], Raise (AssertionError msg))
     /\ (isinstance_str filename = true -> msg = msg_load_by))
  /\ (recognized_mode load_by ->
      outcome (load_targets_from_file fs filename load_by
                 namecol racol deccol)
      <> Raise (AssertionError msg_load_by)).
Proof.
  split.
  - intros Hmode. apply py_in_modes_false in Hmode.
    destruct filename as [path| |].
    + exists msg_load_by. split; [|reflexivity].
      now apply load_bad_mode.
    + exists msg_filename. split; [now apply load_not_str|discriminate].
    + exists msg_filename. split; [now apply load_not_str|discriminate].
  - intros Hmode.
    destruct filename as [path| |];
      try (rewrite load_not_str by reflexivity; discriminate).
    destruct (Str.endswith path ".csv") eqn:Hend.
    + destruct (fs path) as [e|df] eqn:Hfs.
      * apply py_in_modes in Hmode.
        rewrite (load_read_failure fs path e _ _ _ _ Hfs Hend Hmode).
        discriminate.
      * destruct Hmode as [-> | ->].
        -- rewrite (load_by_name fs path df _ _ _ Hfs Hend).
           cbn [outcome snd]. intros H.
           apply names_branch_assertion in H.
           symmetry in H. now apply msg_column_not_msg_load_by in H.
        -- rewrite (load_by_coord fs path df _ _ _ Hfs Hend).
           cbn [outcome snd]. intros H.
           apply coords_branch_assertion in H.
           destruct H as [H|H]; symmetry in H;
             now apply msg_column_not_msg_load_by in H.
    + apply py_in_modes in Hmode.
      rewrite (load_bad_extension fs path _ _ _ _ Hmode Hend).
      discriminate.
Qed.

(** C9. In name mode the result does not depend on [racol] and [deccol];
    in coordinate mode it does not depend on [namecol]. *)
Theorem unused_columns_do_not_interfere fs (filename : pyvalue)
    (namecol namecol' racol racol' deccol deccol' : string) :
  load_targets_from_file fs filename (PyStr "name") namecol racol deccol
  = load_targets_from_file fs filename (PyStr "name") namecol racol'
      deccol'
  /\ load_targets_from_file fs filename (PyStr "coord")
       namecol racol deccol
     = load_targets_from_file fs filename (PyStr "coord")
         namecol' racol deccol.
Proof.
  unfold load_targets_from_file.
  cbn [py_eq String.eqb Ascii.eqb Bool.eqb]. split; reflexivity.
Qed.

(** C10 (amended). The checks run in the order: filename is a string,
    [load_by] is recognized, filename ends in [.csv].  Each of these three
    failures is raised with no file access made, so that an unrecognized
    [load_by] gives the mode error whatever the extension; the file is
    read only once all three have passed.  The one other assertion of the
    function, on a missing column, is raised after the file has been
    read: an assertion failure of a call is one of the three above with no
    access, or the missing-column error after the one access. *)
Theorem validation_order fs (filename : pyvalue) (path : string)
    (load_by : pyvalue) (namecol racol deccol : string) :
  (isinstance_str filename = false ->
   load_targets_from_file fs filename load_by namecol racol deccol
   = ([], Raise (AssertionError msg_filename)))
  /\ (~ recognized_mode load_by ->
      load_targets_from_file fs (PyStr path) load_by namecol racol deccol
      = ([], Raise (AssertionError msg_load_by)))
  /\ (recognized_mode load_by ->
      Str.endswith path ".csv" = false ->
      load_targets_from_file fs (PyStr path) load_by namecol racol deccol
      = ([], Raise (AssertionError msg_csv)))
  /\ (recognized_mode load_by ->
      Str.endswith path ".csv" = true ->
      trace (load_targets_from_file fs (PyStr path) load_by
               namecol racol deccol)
      = [ReadCsv path])
  /\ (forall msg,
      outcome (load_targets_from_file fs (PyStr path) load_by
                 namecol racol deccol)
      = Raise (AssertionError msg) ->
      ((msg = msg_load_by \/ msg = msg_csv)
       /\ trace (load_targets_from_file fs (PyStr path) load_by
                   namecol racol deccol) = [])
      \/ ((exists col,
             (col = normalize namecol \/ col = normalize racol
              \/ col = normalize deccol)
             /\ msg = ("csv file does not contain column " ++ col)%string)
          /\ trace (load_targets_from_file fs (PyStr path) load_by
                      namecol racol deccol) = [ReadCsv path])).
Proof.
  split; [|split; [|split; [|split]]].
  - apply load_not_str.
  - intros Hmode. apply load_bad_mode.
    now apply py_in_modes_false.
  - intros Hmode Hext. apply load_bad_extension; [|exact Hext].
    now apply py_in_modes.
  - intros Hmode Hext.
    destruct (fs path) as [e|df] eqn:Hfs.
    + apply py_in_modes in Hmode.
      now rewrite (load_read_failure fs path e _ _ _ _ Hfs Hext Hmode).
    + destruct Hmode as [-> | ->].
      * now rewrite (load_by_name fs path df _ _ _ Hfs Hext).
      * now rewrite (load_by_coord fs path df _ _ _ Hfs Hext).
  - intros msg.
    destruct (py_in load_by [PyStr "name"; PyStr "coord"]) eqn:Hmode.
    + destruct (Str.endswith path ".csv") eqn:Hext.
      * destruct (fs path) as [e|df] eqn:Hfs.
        -- rewrite (load_read_failure fs path e _ _ _ _ Hfs Hext Hmode).
           discriminate.
        -- apply py_in_modes in Hmode as [-> | ->].
           ++ rewrite (load_by_name fs path df _ _ _ Hfs Hext).
              cbn [outcome trace fst snd]. intros H.
              apply names_branch_assertion in H. right.
              split; [|reflexivity]. exists (normalize namecol).
              split; [now left | exact H].
           ++ rewrite (load_by_coord fs path df _ _ _ Hfs Hext).
              cbn [outcome trace fst snd]. intros H.
              apply coords_branch_assertion in H. right.
              split; [|reflexivity]. destruct H as [H|H].
              ** exists (normalize racol).
                 split; [right; now left | exact H].
              ** exists (normalize deccol).
                 split; [right; now right | exact H].
      * rewrite (load_bad_extension fs path _ _ _ _ Hmode Hext).
        cbn [outcome trace fst snd]. intros [= <-]. left.
        split; [now right | reflexivity].
    + rewrite (load_bad_mode fs path _ _ _ _ Hmode).
      cbn [outcome trace fst snd]. intros [= <-]. left.
      split; [now left | reflexivity].
Qed.




Lemma rectangular_cell df (r : list cell) (i : nat) (label : string) :
  rectangular df -> In r (rows df) ->
  nth_error (normalized_columns df) i = Some label ->
  exists a, nth_error r i = Some a.
Proof.
  intros Hrect Hin Hi. unfold rectangular in Hrect.
  rewrite Forall_forall in Hrect. specialize (Hrect r Hin).
  assert (Hlt : i < length r).
  { rewrite Hrect, <- normalized_columns_length.
    apply nth_error_Some. congruence. }
  apply nth_error_Some in Hlt.
  destruct (nth_error r i) as [a|]; [now exists a | congruence].
Qed.

(** C1 (amended). An override that is empty once trimmed selects by
    position: the first column in name mode, the first two columns in
    coordinate mode (there, as soon as either of the two overrides is
    empty, the other being empty or present in the header).  A call that
    leaves the overrides out does not select by position: the parameters
    then hold ["target_name"], ["ra"] and ["dec"], which are looked up by
    name. *)
Theorem empty_override_selects_by_position fs (path : string) df
    (namecol racol deccol : string) :
  fs path = inr df ->
  Str.endswith path ".csv" = true ->
  valid_table df ->
  (normalize namecol = EmptyString -> columns df <> [] ->
   outcome (load_targets_from_file fs (PyStr path) (PyStr "name")
              namecol racol deccol)
   = Ok (Names (column_values 0 (rows df))))
  /\ (normalize racol = EmptyString \/ normalize deccol = EmptyString ->
      normalize racol = EmptyString
      \/ In (normalize racol) (normalized_columns df) ->
      normalize deccol = EmptyString
      \/ In (normalize deccol) (normalized_columns df) ->
      2 <= length (columns df) ->
      outcome (load_targets_from_file fs (PyStr path) (PyStr "coord")
                 namecol racol deccol)
      = Ok (Coords (map (firstn 2) (rows df))))
  /\ (forall k,
      nth_error (normalized_columns df) k = Some "target_name" ->
      outcome (call_load_targets_from_file fs (PyStr path) no_keywords)
      = Ok (Names (column_values k (rows df))))
  /\ (~ In "target_name" (normalized_columns df) ->
      outcome (call_load_targets_from_file fs (PyStr path) no_keywords)
      = Raise (AssertionError (msg_column "target_name")))
  /\ (forall i j,
      nth_error (normalized_columns df) i = Some "ra" ->
      nth_error (normalized_columns df) j = Some "dec" ->
      outcome (call_load_targets_from_file fs (PyStr path)
                 (mkKeywords (Some (PyStr "coord")) None None None))
      = Ok (Coords (map (take [i; j]) (rows df))))
  /\ (~ In "ra" (normalized_columns df) ->
      outcome (call_load_targets_from_file fs (PyStr path)
                 (mkKeywords (Some (PyStr "coord")) None None None))
      = Raise (AssertionError (msg_column "ra"))).
Proof.
  intros Hfs Hend [Hrect Hnd].
  unfold call_load_targets_from_file. cbn [or_default no_keywords
    kw_load_by kw_namecol kw_racol kw_deccol].
  rewrite !(load_by_name fs path df _ _ _ Hfs Hend).
  rewrite !(load_by_coord fs path df _ _ _ Hfs Hend).
  cbn [outcome snd]. repeat split.
  - intros Hn Hne.
    apply (names_positional (rename normalize df) namecol Hn Hnd).
    rewrite rename_columns. now destruct (columns df).
  - intros Hempty Hr Hd Hlen.
    apply (coords_positional (rename normalize df) racol deccol
             Hempty Hr Hd Hnd).
    now rewrite rename_columns, length_map.
  - intros k Hk.
    apply (names_found (rename normalize df) "target_name" k);
      [discriminate | exact Hnd | exact Hk].
  - intros Hin.
    apply (names_missing (rename normalize df) "target_name");
      [discriminate | exact Hin].
  - intros i j Hi Hj.
    apply (coords_found (rename normalize df) "ra" "dec" i j);
      try discriminate; try assumption.
    intros ->. rewrite Hi in Hj. discriminate.
  - intros Hin.
    apply (coords_ra_missing (rename normalize df) "ra" "dec");
      [discriminate | exact Hin].
Qed.

(** C2 (amended). In coordinate mode each override that is given is
    checked against the header on its own, RA first.  The pairs are taken
    from the RA and Dec override columns when both overrides are given;
    as soon as one of them is empty the pairs are the first two columns
    of the file, whatever the other override names. *)
Theorem coord_columns_resolution fs (path : string) df
    (namecol racol deccol : string) :
  fs path = inr df ->
  Str.endswith path ".csv" = true ->
  valid_table df ->
  (normalize racol <> EmptyString ->
   ~ In (normalize racol) (normalized_columns df) ->
   outcome (load_targets_from_file fs (PyStr path) (PyStr "coord")
              namecol racol deccol)
   = Raise (AssertionError (msg_column (normalize racol))))
  /\ (normalize racol = EmptyString
      \/ In (normalize racol) (normalized_columns df) ->
      normalize deccol <> EmptyString ->
      ~ In (normalize deccol) (normalized_columns df) ->
      outcome (load_targets_from_file fs (PyStr path) (PyStr "coord")
                 namecol racol deccol)
      = Raise (AssertionError (msg_column (normalize deccol))))
  /\ (forall i j,
      normalize racol <> EmptyString ->
      normalize deccol <> EmptyString ->
      nth_error (normalized_columns df) i = Some (normalize racol) ->
      nth_error (normalized_columns df) j = Some (normalize deccol) ->
      i <> j ->
      outcome (load_targets_from_file fs (PyStr path) (PyStr "coord")
                 namecol racol deccol)
      = Ok (Coords (map (take [i; j]) (rows df)))
      /\ forall r, In r (rows df) ->
           exists a b, nth_error r i = Some a /\ nth_error r j = Some b
                       /\ take [i; j] r = [a; b])
  /\ (normalize racol = EmptyString \/ normalize deccol = EmptyString ->
      normalize racol = EmptyString
      \/ In (normalize racol) (normalized_columns df) ->
      normalize deccol = EmptyString
      \/ In (normalize deccol) (normalized_columns df) ->
      2 <= length (columns df) ->
      outcome (load_targets_from_file fs (PyStr path) (PyStr "coord")
                 namecol racol deccol)
      = Ok (Coords (map (firstn 2) (rows df)))).
Proof.
  intros Hfs Hend [Hrect Hnd].
  rewrite !(load_by_coord fs path df _ _ _ Hfs Hend).
  cbn [outcome snd]. split; [|split; [|split]].
  - intros Hr Hin.
    now apply (coords_ra_missing (rename normalize df) racol deccol).
  - intros Hr Hd Hin.
    now apply (coords_dec_missing (rename normalize df) racol deccol).
  - intros i j Hr Hd Hi Hj Hij. split.
    + now apply (coords_found (rename normalize df) racol deccol i j).
    + intros r Hin.
      destruct (rectangular_cell df r i _ Hrect Hin Hi) as [a Ha].
      destruct (rectangular_cell df r j _ Hrect Hin Hj) as [b Hb].
      exists a, b. repeat split; try assumption.
      now apply take_two.
  - intros Hempty Hr Hd Hlen.
    apply (coords_positional (rename normalize df) racol deccol
             Hempty Hr Hd Hnd).
    now rewrite rename_columns, length_map.
Qed.

End Claims.

Lemma name_mode_keeps_rows_witness :
  exists l,
    load_targets_from_file disk (PyStr "ids.csv") (PyStr "name")
      " TARGET_name" "ra" "dec"
    = ([ReadCsv "ids.csv"], Ok (Names l))
    /\ length l = 3
    /\ forall i r, nth_error (rows ids_csv) i = Some r ->
         nth_error l i = nth_error r 1 /\ nth_error r 1 <> None.
Proof.
  apply (name_mode_keeps_rows disk "ids.csv" ids_csv " TARGET_name"
           "ra" "dec" 1).
  - reflexivity.
  - reflexivity.
  - valid_sample.
  - reflexivity.
Defined.

(** C8. The keys of the target-count dictionary built from a list of
    target names are the distinct names, each once, in the order of their
    first occurrence in the list. *)
Theorem target_count_keys (count : string -> nat) (names : list string) :
  keys (count_targets count names) = first_occurrences names
  /\ NoDup (keys (count_targets count names))
  /\ (forall x, In x (keys (count_targets count names)) <-> In x names)
  /\ (forall a b, In a names -> In b names ->
        (index_of a (keys (count_targets count names))
         < index_of b (keys (count_targets count names))
         <-> index_of a names < index_of b names)).
Proof.
  assert (E : keys (count_targets count names) = first_occurrences names).
  { unfold count_targets. now rewrite keys_count_loop, keys_zero_counts. }
  rewrite E. split; [reflexivity|]. split; [apply first_occurrences_NoDup|].
  split.
  - intros x. apply first_occurrences_In.
  - intros a b. apply index_of_first_occurrences.
Qed.

(** ** The claims at concrete inputs *)

Lemma targets_csv_valid : valid_table targets_csv.
Proof. valid_sample. Qed.

Lemma ids_csv_valid : valid_table ids_csv.
Proof. valid_sample. Qed.

Lemma radec_csv_valid : valid_table radec_csv.
Proof. valid_sample. Qed.

(** C1 as stated fails: the call with no overrides on [ids.csv] returns the
    [target_name] column, which is the second one, not the first. *)
Lemma call_without_overrides_is_by_name :
  ~ (forall (fs : storage string) (path : string) (df : DataFrame string),
       fs path = inr df ->
       Str.endswith path ".csv" = true ->
       valid_table df ->
       columns df <> [] ->
       outcome (call_load_targets_from_file fs (PyStr path) no_keywords)
       = Ok (Names (column_values 0 (rows df)))).
Proof.
  intros H.
  specialize (H disk "ids.csv" ids_csv eq_refl eq_refl ids_csv_valid).
  assert (Hne : columns ids_csv <> []) by discriminate.
  specialize (H Hne). vm_compute in H. discriminate.
Qed.

(** C2 as stated fails: with an RA override and no Dec override the pairs
    of [targets.csv] start with the first column, not with the RA column. *)
Lemma ra_override_alone_is_not_used :
  ~ (forall (fs : storage string) (path : string) (df : DataFrame string)
            (namecol racol deccol : string) (i : nat)
            (l : list (list string)),
       fs path = inr df ->
       Str.endswith path ".csv" = true ->
       valid_table df ->
       normalize racol <> EmptyString ->
       nth_error (normalized_columns df) i = Some (normalize racol) ->
       outcome (load_targets_from_file fs (PyStr path) (PyStr "coord")
                  namecol racol deccol)
       = Ok (Coords l) ->
       forall n r, nth_error (rows df) n = Some r ->
         exists t, nth_error l n = Some t
                   /\ nth_error t 0 = nth_error r i).
Proof.
  intros H.
  specialize (H disk "targets.csv" targets_csv "" "ra" "" 1
                (map (firstn 2) (rows targets_csv))
                eq_refl eq_refl targets_csv_valid).
  assert (Hra : normalize "ra" <> EmptyString) by discriminate.
  specialize (H Hra eq_refl eq_refl 0 _ eq_refl).
  destruct H as [t [Ht H0]]. vm_compute in Ht. injection Ht as <-.
  vm_compute in H0. discriminate.
Qed.

Lemma empty_override_selects_by_position_witness :
  outcome (load_targets_from_file disk (PyStr "targets.csv") (PyStr "name")
             "  " "" "")
  = Ok (Names ["CX Tau"; "Fomalhaut"; "HL Tauri"; "M 8"; "HD 12345"])
  /\ outcome (load_targets_from_file disk (PyStr "targets.csv")
                (PyStr "coord") "  " "" "")
     = Ok (Coords (map (firstn 2) (rows targets_csv)))
  /\ outcome (call_load_targets_from_file disk (PyStr "ids.csv")
                no_keywords)
     = Ok (Names ["CX Tau"; "M 8"; "CX Tau"])
  /\ outcome (call_load_targets_from_file disk (PyStr "radec.csv")
                no_keywords)
     = Raise (AssertionError (msg_column "target_name"))
  /\ outcome (call_load_targets_from_file disk (PyStr "targets.csv")
                (mkKeywords (Some (PyStr "coord")) None None None))
     = Ok (Coords (map (take [1; 2]) (rows targets_csv)))
  /\ outcome (call_load_targets_from_file disk (PyStr "radec.csv")
                (mkKeywords (Some (PyStr "coord")) None None None))
     = Raise (AssertionError (msg_column "ra")).
Proof.
  pose proof (empty_override_selects_by_position disk "targets.csv"
                targets_csv "  " "" "" eq_refl eq_refl targets_csv_valid)
    as [T1 [T2 [_ [_ [T5 _]]]]].
  pose proof (empty_override_selects_by_position disk "ids.csv"
                ids_csv "" "" "" eq_refl eq_refl ids_csv_valid)
    as [_ [_ [I3 _]]].
  pose proof (empty_override_selects_by_position disk "radec.csv"
                radec_csv "" "" "" eq_refl eq_refl radec_csv_valid)
    as [_ [_ [_ [R4 [_ R6]]]]].
  split; [apply T1; [reflexivity | discriminate]|].
  split; [apply T2; [now left | now left | now left | cbn; lia]|].
  split; [apply (I3 1); reflexivity|].
  split; [apply R4; vm_compute; intuition discriminate|].
  split; [apply (T5 1 2); reflexivity|].
  apply R6; vm_compute; intuition discriminate.
Defined.

Lemma coord_columns_resolution_witness :
  outcome (load_targets_from_file disk (PyStr "targets.csv")
             (PyStr "coord") "" "raj2000" "dec")
  = Raise (AssertionError (msg_column "raj2000"))
  /\ outcome (load_targets_from_file disk (PyStr "targets.csv")
                (PyStr "coord") "" "" "Declination")
     = Raise (AssertionError (msg_column "declination"))
  /\ outcome (load_targets_from_file disk (PyStr "targets.csv")
                (PyStr "coord") "" "Dec " "RA")
     = Ok (Coords (map (take [2; 1]) (rows targets_csv)))
  /\ outcome (load_targets_from_file disk (PyStr "targets.csv")
                (PyStr "coord") "" "ra" "")
     = Ok (Coords (map (firstn 2) (rows targets_csv))).
Proof.
  split; [|split; [|split]].
  - apply (coord_columns_resolution disk "targets.csv" targets_csv
             "" "raj2000" "dec" eq_refl eq_refl targets_csv_valid).
    + discriminate.
    + vm_compute. intuition discriminate.
  - apply (coord_columns_resolution disk "targets.csv" targets_csv
             "" "" "Declination" eq_refl eq_refl targets_csv_valid).
    + now left.
    + discriminate.
    + vm_compute. intuition discriminate.
  - apply (coord_columns_resolution disk "targets.csv" targets_csv
             "" "Dec " "RA" eq_refl eq_refl targets_csv_valid);
      try discriminate; try reflexivity.
  - apply (coord_columns_resolution disk "targets.csv" targets_csv
             "" "ra" "" eq_refl eq_refl targets_csv_valid).
    + now right.
    + right. vm_compute. tauto.
    + now left.
    + cbn. lia.
Defined.

Lemma missing_override_column_fails_witness :
  load_targets_from_file disk (PyStr "radec.csv") (PyStr "name")
    " Target_Name" "ra" "dec"
  = ([ReadCsv "radec.csv"],
     Raise (AssertionError
              "csv file does not contain column target_name"))
  /\ load_targets_from_file disk (PyStr "radec.csv") (PyStr "coord")
       "name" "RA" "dej2000"
     = ([ReadCsv "radec.csv"],
        Raise (AssertionError "csv file does not contain column ra"))
  /\ load_targets_from_file disk (PyStr "radec.csv") (PyStr "coord")
       "name" "raj2000" "Dec"
     = ([ReadCsv "radec.csv"],
        Raise (AssertionError "csv file does not contain column dec")).
Proof.
  split; [|split].
  - apply (missing_override_column_fails disk "radec.csv" _ _
             " Target_Name" "ra" "dec" eq_refl eq_refl).
    + discriminate.
    + vm_compute. intuition discriminate.
  - apply (missing_override_column_fails disk "radec.csv" _ _
             "name" "RA" "dej2000" eq_refl eq_refl).
    + discriminate.
    + vm_compute. intuition discriminate.
  - apply (missing_override_column_fails disk "radec.csv" _ _
             "name" "raj2000" "Dec" eq_refl eq_refl).
    + right. vm_compute. tauto.
    + discriminate.
    + vm_compute. intuition discriminate.
Defined.

Lemma non_csv_filename_fails_witness :
  (exists msg,
     load_targets_from_file disk (PyStr "targets.txt") (PyStr "name")
       "target_name" "ra" "dec"
     = ([], Raise (AssertionError msg)))
  /\ load_targets_from_file disk (PyStr "targets.txt") (PyStr "name")
       "target_name" "ra" "dec"
     = load_targets_from_file (fun _ => inr targets_csv)
         (PyStr "targets.txt") (PyStr "name") "target_name" "ra" "dec".
Proof.
  apply (non_csv_filename_fails disk (fun _ => inr targets_csv)
           "targets.txt" (PyStr "name") "target_name" "ra" "dec").
  intros H. apply StrFacts.endswith_spec in H. discriminate.
Defined.

Lemma load_by_is_checked_witness :
  (exists msg,
     load_targets_from_file disk (PyStr "targets.csv") (PyStr "radec")
       "target_name" "ra" "dec"
     = ([], Raise (AssertionError msg))
     /\ (isinstance_str (PyStr "targets.csv") = true -> msg = msg_load_by))
  /\ outcome (load_targets_from_file disk (PyStr "radec.csv")
                (PyStr "coord") "target_name" "ra" "dec")
     <> Raise (AssertionError msg_load_by).
Proof.
  split.
  - apply (load_by_is_checked disk (PyStr "targets.csv") (PyStr "radec")
             "target_name" "ra" "dec").
    intros [H|H]; discriminate.
  - apply (load_by_is_checked disk (PyStr "radec.csv") (PyStr "coord")
             "target_name" "ra" "dec").
    now right.
Defined.


Lemma validation_order_witness :
  load_targets_from_file disk (PyInt 3) (PyStr "radec") "" "" ""
  = ([], Raise (AssertionError msg_filename))
  /\ load_targets_from_file disk (PyStr "targets.txt") (PyStr "radec")
       "" "" ""
     = ([], Raise (AssertionError msg_load_by))
  /\ load_targets_from_file disk (PyStr "targets.txt") (PyStr "coord")
       "" "" ""
     = ([], Raise (AssertionError msg_csv))
  /\ trace (load_targets_from_file disk (PyStr "missing.csv")
              (PyStr "coord") "" "" "")
     = [ReadCsv "missing.csv"]
  /\ (("csv file does not contain column target_name" = msg_load_by
       \/ "csv file does not contain column target_name" = msg_csv)
      /\ trace (load_targets_from_file disk (PyStr "radec.csv")
                  (PyStr "name") "Target_Name" "ra" "dec") = []
      \/ (exists col,
            (col = normalize "Target_Name" \/ col = normalize "ra"
             \/ col = normalize "dec")
            /\ "csv file does not contain column target_name"
               = ("csv file does not contain column " ++ col)%string)
         /\ trace (load_targets_from_file disk (PyStr "radec.csv")
                     (PyStr "name") "Target_Name" "ra" "dec")
            = [ReadCsv "radec.csv"]).
Proof.
  split; [|split; [|split; [|split]]].
  - apply (validation_order disk (PyInt 3) "" (PyStr "radec") "" "" "").
    reflexivity.
  - apply (validation_order disk PyNone "targets.txt" (PyStr "radec")
             "" "" "").
    intros [H|H]; discriminate.
  - apply (validation_order disk PyNone "targets.txt" (PyStr "coord")
             "" "" "").
    + now right.
    + reflexivity.
  - apply (validation_order disk PyNone "missing.csv" (PyStr "coord")
             "" "" "").
    + now right.
    + reflexivity.
  - destruct (validation_order disk PyNone "radec.csv" (PyStr "name")
                "Target_Name" "ra" "dec") as [_ [_ [_ [_ H]]]].
    apply (H "csv file does not contain column target_name").
    reflexivity.
Defined.

(** C10 as stated fails: the missing-column assertion, an input-validation
    failure like the three others, is raised on [radec.csv] after the
    file has been read. *)
Lemma missing_column_failure_follows_the_read :
  ~ (forall (fs : storage string) (filename load_by : pyvalue)
            (namecol racol deccol msg : string),
       outcome (load_targets_from_file fs filename load_by
                  namecol racol deccol)
       = Raise (AssertionError msg) ->
       trace (load_targets_from_file fs filename load_by
                namecol racol deccol)
       = []).
Proof.
  intros H.
  specialize (H disk (PyStr "radec.csv") (PyStr "name")
                "target_name" "ra" "dec"
                "csv file does not contain column target_name" eq_refl).
  discriminate H.
Qed.

Lemma target_count_keys_witness :
  keys (count_targets (fun _ => 2) ["M 8"; "CX Tau"; "M 8"; "CX Tau"])
  = ["M 8"; "CX Tau"]
  /\ (index_of "M 8"
        (keys (count_targets (fun _ => 2) ["M 8"; "CX Tau"; "M 8"; "CX Tau"]))
      < index_of "CX Tau"
          (keys (count_targets (fun _ => 2)
                   ["M 8"; "CX Tau"; "M 8"; "CX Tau"]))
      <-> index_of "M 8" ["M 8"; "CX Tau"; "M 8"; "CX Tau"]
          < index_of "CX Tau" ["M 8"; "CX Tau"; "M 8"; "CX Tau"]).
Proof.
  pose proof (target_count_keys (fun _ => 2)
                ["M 8"; "CX Tau"; "M 8"; "CX Tau"]) as [E [_ [_ H]]].
  split; [exact E|].
  apply H; cbn; tauto.
Defined.

(** * Further properties *)

(** ** More on strings *)

Lemma length_append (a b : string) :
  String.length (a ++ b) = String.length a + String.length b.
Proof.
  induction a as [|c a IH]; cbn [append String.length]; [reflexivity|].
  now rewrite IH.
Qed.

(** Two ways of cutting one string at the same distance from its end. *)
Lemma append_same_tail_length (a b c d : string) :
  (a ++ b = c ++ d)%string -> String.length b = String.length d ->
  a = c /\ b = d.
Proof.
  revert c; induction a as [|x a IH]; intros [|y c] H L; cbn [append] in H.
  - now split.
  - subst b. cbn [String.length] in L. rewrite length_append in L. lia.
  - subst d. cbn [String.length] in L. rewrite length_append in L. lia.
  - injection H as -> H. destruct (IH c H L) as [-> ->]. now split.
Qed.

Lemma append_inv_tail (x y t : string) : (x ++ t = y ++ t)%string -> x = y.
Proof.
  intros H. now destruct (append_same_tail_length x t y t H eq_refl).
Qed.


Lemma py_str_int_inj (n m : N) : py_str (PyInt n) = py_str (PyInt m) -> n = m.
Proof.
  cbn [py_str]. intros H.
  apply (f_equal NilEmpty.uint_of_string) in H.
  rewrite !NilEmpty.usu in H. injection H as H.
  apply (f_equal N.of_uint) in H. now rewrite !DecimalN.Unsigned.of_to in H.
Qed.

Lemma get_program_URL_eq (program_id : pyvalue) :
  get_program_URL program_id
  = Ok (url_head ++ py_str program_id ++ url_tail)%string.
Proof. reflexivity. Qed.

(** X1. [get_program_URL] never fails and wraps the id, as [str] prints
    it, between two fixed parts; ids that print differently get different
    URLs, so that a URL identifies its program. *)
Theorem program_URL_identifies_program (a b : pyvalue) :
  get_program_URL a = Ok (url_head ++ py_str a ++ url_tail)%string
  /\ (get_program_URL a = get_program_URL b -> py_str a = py_str b)
  /\ (forall x y, a = PyStr x -> b = PyStr y ->
      get_program_URL a = get_program_URL b -> x = y)
  /\ (forall n m, a = PyInt n -> b = PyInt m ->
      get_program_URL a = get_program_URL b -> n = m).
Proof.
  assert (Inj : get_program_URL a = get_program_URL b ->
                py_str a = py_str b).
  { rewrite !get_program_URL_eq. intros [= H].
    now apply append_inv_tail in H. }
  split; [apply get_program_URL_eq|]. split; [exact Inj|]. split.
  - intros x y -> -> H. exact (Inj H).
  - intros n m -> -> H. apply py_str_int_inj. exact (Inj H).
Qed.

Lemma program_URL_identifies_program_witness :
  get_program_URL (PyStr "1234")
  = Ok "http://www.stsci.edu/cgi-bin/get-proposal-info?id=1234&observatory=JWST"
  /\ (get_program_URL (PyInt 1234) = get_program_URL (PyInt 1234) ->
      1234%N = 1234%N).
Proof.
  pose proof (program_URL_identifies_program (PyStr "1234") (PyStr "1234"))
    as [E _].
  pose proof (program_URL_identifies_program (PyInt 1234) (PyInt 1234))
    as [_ [_ [_ H]]].
  split; [exact E|].
  intros U. exact (H 1234%N 1234%N eq_refl eq_refl U).
Defined.

(** ** Look-up and assignment in a dictionary *)

Section DictLookup.

Context {V : Type}.
Implicit Types (d : dict V) (k : string) (v : V).

Lemma getitem_setitem_same d k v : getitem_dict (setitem d k v) k = Some v.
Proof.
  induction d as [|[k' v'] d IH]; cbn [setitem getitem_dict].
  - now rewrite String.eqb_refl.
  - destruct (String.eqb k k') eqn:E; cbn [getitem_dict]; now rewrite E.
Qed.

Lemma getitem_setitem_other d k k' v :
  k <> k' -> getitem_dict (setitem d k v) k' = getitem_dict d k'.
Proof.
  intros N. induction d as [|[k0 v0] d IH]; cbn [setitem getitem_dict].
  - apply String.eqb_neq in N. rewrite String.eqb_sym in N. now rewrite N.
  - destruct (String.eqb k k0) eqn:E; cbn [getitem_dict]; [|now rewrite IH].
    apply String.eqb_eq in E. subst k0.
    destruct (String.eqb k' k) eqn:E'; [|reflexivity].
    apply String.eqb_eq in E'. congruence.
Qed.

Lemma setitem_same_value d k v :
  getitem_dict d k = Some v -> setitem d k v = d.
Proof.
  induction d as [|[k' v'] d IH]; cbn [setitem getitem_dict];
    [discriminate|].
  destruct (String.eqb k k'); [now intros [= ->] | intros H].
  now rewrite (IH H).
Qed.

Lemma getitem_dict_None d k : getitem_dict d k = None <-> ~ In k (keys d).
Proof.
  induction d as [|[k' v'] d IH]; cbn [getitem_dict keys map fst In];
    [tauto|].
  fold (keys d). destruct (String.eqb k k') eqn:E.
  - apply String.eqb_eq in E. subst. split; [discriminate | tauto].
  - apply String.eqb_neq in E. rewrite IH. intuition congruence.
Qed.

End DictLookup.

(** ** Slices *)

Lemma slice_to_length (n : nat) (x : string) :
  String.length (slice_to n x) = Nat.min n (String.length x).
Proof.
  revert x; induction n as [|n IH]; intros [|c x];
    cbn [slice_to String.length Nat.min]; try reflexivity.
  now rewrite IH.
Qed.

Lemma slice_to_prefix (n : nat) (x : string) :
  exists rest, x = (slice_to n x ++ rest)%string.
Proof.
  revert x; induction n as [|n IH]; intros x.
  - exists x. now destruct x.
  - destruct x as [|c x]; [now exists EmptyString|].
    destruct (IH x) as [rest E]. exists rest. cbn [slice_to append].
    now rewrite <- E.
Qed.

Lemma slice_to_short (n : nat) (x : string) :
  String.length x <= n -> slice_to n x = x.
Proof.
  revert x; induction n as [|n IH]; intros [|c x] L;
    cbn [slice_to String.length] in *; try reflexivity; try lia.
  rewrite IH; [reflexivity | lia].
Qed.

Lemma slice_to_idempotent (n : nat) (x : string) :
  slice_to n (slice_to n x) = slice_to n x.
Proof.
  apply slice_to_short. rewrite slice_to_length. lia.
Qed.

(** ** The display *)

Lemma comprehension_urls (ids : list string) :
  comprehension (fun x => get_program_URL (PyStr x)) ids
  = Ok (map program_url ids).
Proof.
  induction ids as [|x ids IH]; cbn [comprehension map]; [reflexivity|].
  rewrite get_program_URL_eq, IH. reflexivity.
Qed.

Lemma columns_of_state (names : list string) (obs : Table) :
  fst (columns_of names obs) = obs.
Proof.
  induction names as [|c names IH]; cbn [columns_of]; [reflexivity|].
  unfold act_bind, column, act_ret.
  destruct (getitem_dict obs c); [|reflexivity].
  destruct (columns_of names obs) as [obs' [t|e]]; cbn in *; now subst.
Qed.

Lemma columns_of_ok (names : list string) (obs : Table) :
  (forall c, In c names -> getitem_dict obs c <> None) ->
  exists t, columns_of names obs = (obs, Ok t).
Proof.
  induction names as [|c names IH]; intros H; cbn [columns_of].
  - now exists [].
  - unfold act_bind, column, act_ret.
    destruct (getitem_dict obs c) as [values|] eqn:E.
    + destruct IH as [t Ht]; [intros c' Hc'; apply H; now right|].
      rewrite Ht. now exists ((c, values) :: t).
    + exfalso. apply (H c); [now left | exact E].
Qed.

Lemma displayed_lookup (obs : Table) (ids titles : list string) (c : string) :
  getitem_dict (displayed obs ids titles) c =
  if String.eqb c "obs_title" then Some (map (slice_to 70) titles)
  else if String.eqb c "proposal_URL" then Some (map program_url ids)
  else getitem_dict obs c.
Proof.
  unfold displayed.
  destruct (String.eqb c "obs_title") eqn:E1.
  - apply String.eqb_eq in E1. subst. apply getitem_setitem_same.
  - apply String.eqb_neq in E1.
    rewrite getitem_setitem_other by congruence.
    destruct (String.eqb c "proposal_URL") eqn:E2.
    + apply String.eqb_eq in E2. subst. apply getitem_setitem_same.
    + apply String.eqb_neq in E2.
      now rewrite getitem_setitem_other by congruence.
Qed.

Lemma display_results_steps (obs : Table) (ids titles : list string) :
  getitem_dict obs "proposal_id" = Some ids ->
  getitem_dict obs "obs_title" = Some titles ->
  display_results obs
  = (displayed obs ids titles,
     match snd (columns_of shown_columns (displayed obs ids titles)) with
     | Ok _ => Ok tt
     | Raise e => Raise e
     end).
Proof.
  intros Hid Ht.
  unfold display_results, act_bind at 1, column at 1. rewrite Hid.
  unfold act_bind at 1, act_lift. rewrite comprehension_urls.
  unfold act_bind at 1, set_column at 1.
  unfold act_bind at 1, column at 1.
  rewrite getitem_setitem_other by discriminate. rewrite Ht.
  unfold act_bind at 1, set_column at 1.
  fold (displayed obs ids titles).
  unfold act_bind at 1, column at 1.
  rewrite displayed_lookup. cbn [String.eqb Ascii.eqb Bool.eqb].
  unfold act_bind at 1.
  pose proof (columns_of_state shown_columns (displayed obs ids titles))
    as Hst.
  destruct (columns_of shown_columns (displayed obs ids titles))
    as [obs' [t|e]] eqn:E; cbn [fst snd] in *; subst obs';
    [|reflexivity].
  assert (Hpid : getitem_dict (displayed obs ids titles) "proposal_id"
                 = Some ids)
    by (rewrite displayed_lookup; exact Hid).
  unfold act_bind at 1. cbn [columns_of].
  unfold act_bind at 1, column at 1. rewrite Hpid.
  unfold act_bind at 1, act_bind at 1, column at 1.
  rewrite displayed_lookup. cbn [String.eqb Ascii.eqb Bool.eqb].
  unfold act_bind at 1, act_ret at 1.
  unfold act_ret at 1. unfold act_ret at 1.
  unfold act_bind, column. rewrite displayed_lookup.
  reflexivity.
Qed.

Lemma display_results_ok (obs : Table) (ids titles : list string) :
  getitem_dict obs "proposal_id" = Some ids ->
  getitem_dict obs "obs_title" = Some titles ->
  (forall c, In c shown_columns -> getitem_dict obs c <> None) ->
  display_results obs = (displayed obs ids titles, Ok tt).
Proof.
  intros Hid Ht Hshown.
  rewrite (display_results_steps obs ids titles Hid Ht).
  destruct (columns_of_ok shown_columns (displayed obs ids titles))
    as [t E]; [|now rewrite E].
  intros c Hc. rewrite displayed_lookup.
  destruct (String.eqb c "obs_title"); [discriminate|].
  destruct (String.eqb c "proposal_URL"); [discriminate|].
  now apply Hshown.
Qed.

Ltac has_shown_columns :=
  let c := fresh "c" in
  let H := fresh "H" in
  intros c H; cbn in H;
  repeat (destruct H as [<- | H]; [discriminate|]); contradiction.

(** X2. After a successful [display_results] the table itself holds the
    shortened titles: row by row the first 70 characters of the title it
    held before, a title of at most 70 characters being kept whole. *)
Theorem display_truncates_titles (obs : Table) (ids titles : list string) :
  getitem_dict obs "proposal_id" = Some ids ->
  getitem_dict obs "obs_title" = Some titles ->
  (forall c, In c shown_columns -> getitem_dict obs c <> None) ->
  exists shown,
    snd (display_results obs) = Ok tt
    /\ getitem_dict (fst (display_results obs)) "obs_title" = Some shown
    /\ length shown = length titles
    /\ forall i t, nth_error titles i = Some t ->
         exists t', nth_error shown i = Some t'
           /\ String.length t' = Nat.min 70 (String.length t)
           /\ (exists rest, t = (t' ++ rest)%string)
           /\ (String.length t <= 70 -> t' = t).
Proof.
  intros Hid Ht Hshown.
  rewrite (display_results_ok obs ids titles Hid Ht Hshown). cbn [fst snd].
  exists (map (slice_to 70) titles). split; [reflexivity|].
  split; [now rewrite displayed_lookup|]. split; [apply length_map|].
  intros i t Hi. exists (slice_to 70 t).
  split; [now rewrite nth_error_map, Hi|].
  split; [apply slice_to_length|].
  split; [apply slice_to_prefix | apply slice_to_short].
Qed.

Lemma display_truncates_titles_witness :
  exists shown,
    snd (display_results sample_obs) = Ok tt
    /\ getitem_dict (fst (display_results sample_obs)) "obs_title"
       = Some shown
    /\ length shown = 2
    /\ forall i t,
         nth_error sample_titles
           i = Some t ->
         exists t', nth_error shown i = Some t'
           /\ String.length t' = Nat.min 70 (String.length t)
           /\ (exists rest, t = (t' ++ rest)%string)
           /\ (String.length t <= 70 -> t' = t).
Proof.
  apply (display_truncates_titles sample_obs ["1331"; "1177"]
           sample_titles).
  - reflexivity.
  - reflexivity.
  - has_shown_columns.
Defined.

(** X3. A successful [display_results] leaves in the table a column
    [proposal_URL] with the URL of each row's program, added after the
    existing columns unless the table had one already; every column other
    than [proposal_URL] and [obs_title] is as it was. *)
Theorem display_adds_url_column (obs : Table) (ids titles : list string) :
  getitem_dict obs "proposal_id" = Some ids ->
  getitem_dict obs "obs_title" = Some titles ->
  (forall c, In c shown_columns -> getitem_dict obs c <> None) ->
  getitem_dict (fst (display_results obs)) "proposal_URL"
  = Some (map program_url ids)
  /\ keys (fst (display_results obs))
     = (if mem "proposal_URL" (keys obs) then keys obs
        else keys obs ++ ["proposal_URL"])
  /\ forall c, c <> "proposal_URL" -> c <> "obs_title" ->
       getitem_dict (fst (display_results obs)) c = getitem_dict obs c.
Proof.
  intros Hid Ht Hshown.
  rewrite (display_results_ok obs ids titles Hid Ht Hshown). cbn [fst].
  split; [now rewrite displayed_lookup|]. split.
  - unfold displayed. rewrite keys_setitem_present, keys_setitem;
      [reflexivity|].
    destruct (in_dec string_dec "obs_title"
                (keys (setitem obs "proposal_URL" (map program_url ids))))
      as [Hin|Hout]; [exact Hin|].
    apply getitem_dict_None in Hout.
    rewrite getitem_setitem_other in Hout by discriminate. congruence.
  - intros c Hu Ht'. rewrite displayed_lookup.
    apply String.eqb_neq in Hu, Ht'. now rewrite Hu, Ht'.
Qed.

Lemma display_adds_url_column_witness :
  getitem_dict (fst (display_results sample_obs)) "proposal_URL"
  = Some (map program_url ["1331"; "1177"])
  /\ keys (fst (display_results sample_obs))
     = (if mem "proposal_URL" (keys sample_obs) then keys sample_obs
        else keys sample_obs ++ ["proposal_URL"])
  /\ forall c, c <> "proposal_URL" -> c <> "obs_title" ->
       getitem_dict (fst (display_results sample_obs)) c
       = getitem_dict sample_obs c.
Proof.
  apply (display_adds_url_column sample_obs ["1331"; "1177"] sample_titles).
  - reflexivity.
  - reflexivity.
  - has_shown_columns.
Defined.

(** X4. Displaying a table a second time changes nothing more: the second
    call succeeds and leaves the table as the first call left it. *)
Theorem display_twice (obs : Table) (ids titles : list string) :
  getitem_dict obs "proposal_id" = Some ids ->
  getitem_dict obs "obs_title" = Some titles ->
  (forall c, In c shown_columns -> getitem_dict obs c <> None) ->
  display_results (fst (display_results obs))
  = (fst (display_results obs), Ok tt).
Proof.
  intros Hid Ht Hshown.
  rewrite (display_results_ok obs ids titles Hid Ht Hshown). cbn [fst].
  rewrite (display_results_ok (displayed obs ids titles) ids
             (map (slice_to 70) titles)).
  - f_equal. unfold displayed at 1.
    rewrite (setitem_same_value (displayed obs ids titles) "proposal_URL")
      by now rewrite displayed_lookup.
    apply setitem_same_value. rewrite displayed_lookup.
    cbn [String.eqb Ascii.eqb Bool.eqb]. f_equal.
    rewrite map_map. apply map_ext. intros t. symmetry.
    apply slice_to_idempotent.
  - now rewrite displayed_lookup.
  - now rewrite displayed_lookup.
  - intros c Hc. rewrite displayed_lookup.
    destruct (String.eqb c "obs_title"); [discriminate|].
    destruct (String.eqb c "proposal_URL"); [discriminate|].
    now apply Hshown.
Qed.

Lemma display_twice_witness :
  display_results (fst (display_results sample_obs))
  = (fst (display_results sample_obs), Ok tt).
Proof.
  apply (display_twice sample_obs ["1331"; "1177"] sample_titles).
  - reflexivity.
  - reflexivity.
  - has_shown_columns.
Defined.

(** X6. A call that fails can leave the table changed: without
    [proposal_id] the table is untouched, but when only [obs_title] is
    missing the URL column has been added by the time the error is
    raised. *)
Theorem display_failure_state (obs : Table) (ids : list string) :
  (getitem_dict obs "proposal_id" = None ->
   display_results obs = (obs, Raise (KeyError "proposal_id")))
  /\ (getitem_dict obs "proposal_id" = Some ids ->
      getitem_dict obs "obs_title" = None ->
      display_results obs
      = (setitem obs "proposal_URL" (map program_url ids),
         Raise (KeyError "obs_title"))).
Proof.
  split.
  - intros Hid. unfold display_results, act_bind at 1, column at 1.
    now rewrite Hid.
  - intros Hid Ht.
    unfold display_results, act_bind at 1, column at 1. rewrite Hid.
    unfold act_bind at 1, act_lift. rewrite comprehension_urls.
    unfold act_bind at 1, set_column at 1.
    unfold act_bind at 1, column at 1.
    rewrite getitem_setitem_other by discriminate. now rewrite Ht.
Qed.

Lemma display_failure_state_witness :
  display_results [("obs_title", ["a title"])]
  = ([("obs_title", ["a title"])], Raise (KeyError "proposal_id"))
  /\ display_results [("proposal_id", ["1331"])]
     = ([("proposal_id", ["1331"]);
         ("proposal_URL", [program_url "1331"])],
        Raise (KeyError "obs_title")).
Proof.
  split.
  - apply (display_failure_state [("obs_title", ["a title"])] []).
    reflexivity.
  - apply (display_failure_state [("proposal_id", ["1331"])] ["1331"]);
      reflexivity.
Defined.

Lemma program_url_inj (x y : string) : program_url x = program_url y -> x = y.
Proof.
  unfold program_url, url_head. cbn [append]. intros [= H].
  now apply append_inv_tail in H.
Qed.

Lemma NoDup_map_injective {A B : Type} (f : A -> B) (l : list A) :
  (forall x y, f x = f y -> x = y) -> NoDup l -> NoDup (map f l).
Proof.
  intros Hf. induction 1 as [|x l Hx _ IH]; cbn [map]; constructor;
    [|exact IH].
  rewrite in_map_iff. intros [y [E Hy]]. apply Hf in E. now subst.
Qed.

Lemma url_lines_count (ids lines : list string) :
  NoDup lines ->
  (forall u, In u lines <-> In u (map program_url ids)) ->
  length lines = length (first_occurrences ids)
  /\ forall x, In x ids <-> In (program_url x) lines.
Proof.
  intros Hnd Hin.
  assert (Hmem : forall x, In x ids <-> In (program_url x) lines).
  { intros x. rewrite Hin, in_map_iff. split.
    - intros H. now exists x.
    - intros [y [E Hy]]. apply program_url_inj in E. now subst. }
  split; [|exact Hmem].
  pose (distinct_urls := map program_url (first_occurrences ids)).
  assert (Hnd' : NoDup distinct_urls).
  { apply NoDup_map_injective;
      [apply program_url_inj | apply first_occurrences_NoDup]. }
  assert (Hsame : forall u, In u lines <-> In u distinct_urls).
  { intros u. rewrite Hin. unfold distinct_urls. rewrite !in_map_iff.
    split; intros [x [E Hx]]; exists x; (split; [exact E|]);
      now apply first_occurrences_In. }
  replace (length (first_occurrences ids)) with (length distinct_urls)
    by apply length_map.
  apply Nat.le_antisymm; apply NoDup_incl_length; try assumption;
    intros u Hu; now apply Hsame.
Qed.

Lemma display_results_printing_ok (iter : list string -> list string)
    (obs : Table) (ids titles : list string) :
  getitem_dict obs "proposal_id" = Some ids ->
  getitem_dict obs "obs_title" = Some titles ->
  (forall c, In c shown_columns -> getitem_dict obs c <> None) ->
  display_results_printing iter obs
  = (displayed obs ids titles, Ok (iter (map program_url ids))).
Proof.
  intros Hid Ht Hshown.
  assert (Hreq : forall names,
            (forall c, In c names ->
               c = "obs_title" \/ c = "proposal_URL"
               \/ getitem_dict obs c <> None) ->
            exists t, columns_of names (displayed obs ids titles)
                      = (displayed obs ids titles, Ok t)).
  { intros names H. apply columns_of_ok. intros c Hc.
    rewrite displayed_lookup.
    destruct (String.eqb c "obs_title") eqn:E1; [discriminate|].
    destruct (String.eqb c "proposal_URL") eqn:E2; [discriminate|].
    destruct (H c Hc) as [-> | [-> | H']]; [discriminate.. | exact H']. }
  unfold display_results_printing, act_bind at 1, column at 1.
  rewrite Hid.
  unfold act_bind at 1, act_lift. rewrite comprehension_urls.
  unfold act_bind at 1, set_column at 1.
  unfold act_bind at 1, column at 1.
  rewrite getitem_setitem_other by discriminate. rewrite Ht.
  unfold act_bind at 1, set_column at 1.
  fold (displayed obs ids titles).
  unfold act_bind at 1, column at 1.
  rewrite displayed_lookup. cbn [String.eqb Ascii.eqb Bool.eqb].
  destruct (Hreq shown_columns) as [t1 E1].
  { intros c Hc. right; right. now apply Hshown. }
  unfold act_bind at 1. rewrite E1.
  destruct (Hreq ["proposal_id"; "obs_title"]) as [t2 E2].
  { intros c [<- | [<- | []]]; [right; right; congruence | now left]. }
  unfold act_bind at 1. rewrite E2.
  unfold act_bind, column. rewrite displayed_lookup.
  reflexivity.
Qed.

(** X7. The last loop of [display_results] prints one URL per distinct
    program of the table: whatever the order in which Python walks the
    set, a successful call prints no line twice, as many lines as there
    are distinct proposal ids, and the URL of an id exactly when the id
    occurs in the table. *)
Theorem display_prints_one_url_per_program
    (iter : list string -> list string) (obs : Table)
    (ids titles : list string) :
  set_iteration iter ->
  getitem_dict obs "proposal_id" = Some ids ->
  getitem_dict obs "obs_title" = Some titles ->
  (forall c, In c shown_columns -> getitem_dict obs c <> None) ->
  exists lines,
    display_results_printing iter obs
    = (fst (display_results obs), Ok lines)
    /\ NoDup lines
    /\ length lines = length (first_occurrences ids)
    /\ forall x, In x ids
         <-> exists u, get_program_URL (PyStr x) = Ok u /\ In u lines.
Proof.
  intros Hiter Hid Ht Hshown.
  exists (iter (map program_url ids)).
  rewrite (display_results_printing_ok iter obs ids titles Hid Ht Hshown).
  rewrite (display_results_ok obs ids titles Hid Ht Hshown). cbn [fst].
  destruct (Hiter (map program_url ids)) as [Hnd Hin].
  destruct (url_lines_count ids _ Hnd Hin) as [Hlen Hmem].
  split; [reflexivity|]. split; [exact Hnd|]. split; [exact Hlen|].
  intros x. rewrite Hmem. rewrite get_program_URL_eq. split.
  - intros H. now exists (program_url x).
  - intros [u [[= <-] H]]. exact H.
Qed.

Lemma first_occurrences_iteration : set_iteration first_occurrences.
Proof.
  intros xs. split; [apply first_occurrences_NoDup|].
  intros u. apply first_occurrences_In.
Qed.

Lemma display_prints_one_url_per_program_witness :
  exists lines,
    display_results_printing first_occurrences sample_obs
    = (fst (display_results sample_obs), Ok lines)
    /\ NoDup lines
    /\ length lines = length (first_occurrences ["1331"; "1177"])
    /\ forall x, In x ["1331"; "1177"]
         <-> exists u, get_program_URL (PyStr x) = Ok u /\ In u lines.
Proof.
  apply (display_prints_one_url_per_program first_occurrences sample_obs
           ["1331"; "1177"] sample_titles).
  - exact first_occurrences_iteration.
  - reflexivity.
  - reflexivity.
  - has_shown_columns.
Defined.

(** ** The counting and fetching loops *)

Section ArchiveLoops.

Local Open Scope nat_scope.

Lemma nth_error_keys {V : Type} (d : dict V) (j : nat) :
  nth_error (keys d) j = option_map fst (nth_error d j).
Proof. unfold keys. apply nth_error_map. Qed.

Lemma nth_error_setitem {V : Type} (d : dict V) (i j : nat) (t : string)
    (n v : V) :
  NoDup (keys d) -> nth_error d i = Some (t, n) ->
  nth_error (setitem d t v) j
  = if Nat.eqb j i then Some (t, v) else nth_error d j.
Proof.
  revert i j; induction d as [|[k0 v0] d IH]; intros i j Hnd Hi.
  - now destruct i.
  - cbn [keys map fst] in Hnd. fold (keys d) in Hnd.
    inversion Hnd as [|? ? Hk0 Hnd']; subst. cbn [setitem].
    destruct (String.eqb t k0) eqn:E.
    + apply String.eqb_eq in E. subst k0.
      destruct i as [|i].
      * destruct j; reflexivity.
      * exfalso. apply Hk0. cbn [nth_error] in Hi.
        apply nth_error_In in Hi. unfold keys. apply in_map_iff.
        now exists (t, n).
    + destruct i as [|i]; cbn [nth_error] in Hi.
      * injection Hi as -> _. now rewrite String.eqb_refl in E.
      * destruct j as [|j]; [reflexivity|]. cbn [nth_error Nat.eqb].
        now apply IH.
Qed.

Lemma count_loop_nth (count : string -> nat) (steps i j : nat)
    (d : dict nat) :
  NoDup (keys d) ->
  nth_error (count_loop count steps i d) j
  = match nth_error d j with
    | Some (k, v) =>
        Some (k, if ((i <=? j) && (j <? i + steps))%nat then count k else v)
    | None => None
    end.
Proof.
  revert i d; induction steps as [|steps IH]; intros i d Hnd;
    cbn [count_loop].
  - destruct (nth_error d j) as [[k v]|]; [|reflexivity].
    replace ((i <=? j) && (j <? i + 0))%nat with false; [reflexivity|].
    symmetry. apply andb_false_iff.
    destruct (Nat.leb_spec i j); [right; apply Nat.ltb_ge; lia | now left].
  - destruct (nth_error d i) as [[t n]|] eqn:Hi.
    + rewrite IH by (rewrite keys_setitem_present; [exact Hnd|];
                     apply nth_error_In in Hi; unfold keys;
                     apply in_map_iff; now exists (t, n)).
      rewrite (nth_error_setitem d i j t n _ Hnd Hi).
      destruct (Nat.eqb_spec j i) as [->|Hji].
      * rewrite Hi.
        replace ((i <=? i) && (i <? i + S steps)) with true;
          [now destruct (_ && _)|].
        symmetry. apply andb_true_iff.
        split; [apply Nat.leb_le | apply Nat.ltb_lt]; lia.
      * destruct (nth_error d j) as [[k v]|]; [|reflexivity].
        replace ((S i <=? j) && (j <? S i + steps))%nat
          with ((i <=? j) && (j <? i + S steps))%nat; [reflexivity|].
        destruct (Nat.leb_spec i j), (Nat.leb_spec (S i) j),
          (Nat.ltb_spec j (i + S steps)), (Nat.ltb_spec j (S i + steps));
          cbn; try reflexivity; lia.
    + destruct (nth_error d j) as [[k v]|] eqn:Hj; [|reflexivity].
      replace ((i <=? j) && (j <? i + S steps))%nat with false; [reflexivity|].
      symmetry. apply andb_false_iff. left. apply Nat.leb_gt.
      apply nth_error_None in Hi.
      assert (j < length d) by (apply nth_error_Some; congruence). lia.
Qed.

Lemma zero_counts_NoDup (names : list string) :
  NoDup (keys (zero_counts names)).
Proof. rewrite keys_zero_counts. apply first_occurrences_NoDup. Qed.

Lemma count_targets_eq (count : string -> nat) (names : list string) :
  count_targets count names
  = map (fun k => (k, count k)) (first_occurrences names).
Proof.
  apply nth_error_ext. intros j. unfold count_targets.
  rewrite count_loop_nth by apply zero_counts_NoDup.
  rewrite nth_error_map, <- keys_zero_counts, nth_error_keys.
  destruct (nth_error (zero_counts names) j) as [[k v]|] eqn:Hj;
    [|reflexivity].
  cbn [option_map fst]. f_equal. f_equal.
  assert (j < length (zero_counts names))
    by (apply nth_error_Some; congruence).
  replace (j <? 0 + length (zero_counts names))%nat with true;
    [reflexivity|].
  symmetry. apply Nat.ltb_lt. lia.
Qed.

Lemma getitem_dict_map (count : string -> nat) (ks : list string)
    (k : string) :
  getitem_dict (map (fun k => (k, count k)) ks) k
  = if mem k ks then Some (count k) else None.
Proof.
  induction ks as [|k' ks IH]; cbn [map getitem_dict mem existsb];
    [reflexivity|].
  destruct (String.eqb k k') eqn:E; cbn [orb].
  - apply String.eqb_eq in E. now subst.
  - exact IH.
Qed.

Lemma mem_first_occurrences (k : string) (names : list string) :
  mem k (first_occurrences names) = mem k names.
Proof.
  destruct (mem k names) eqn:E.
  - apply mem_In. apply first_occurrences_In. now apply mem_In.
  - destruct (mem k (first_occurrences names)) eqn:E'; [|reflexivity].
    apply (proj1 (mem_In _ _)) in E'.
    apply (proj1 (first_occurrences_In _ _)) in E'.
    apply (proj2 (mem_In _ _)) in E'. congruence.
Qed.

(** X8. The dictionary the counting loop leaves holds, for each distinct
    target name in the order of first occurrence, the count the archive
    gave for that name; looking up a name that was not supplied finds
    nothing. *)
Theorem count_targets_values (count : string -> nat)
    (names : list string) :
  count_targets count names
  = map (fun k => (k, count k)) (first_occurrences names)
  /\ forall k, getitem_dict (count_targets count names) k
               = if mem k names then Some (count k) else None.
Proof.
  split; [apply count_targets_eq|].
  intros k. now rewrite count_targets_eq, getitem_dict_map,
    mem_first_occurrences.
Qed.







End ArchiveLoops.

(** ** More on the loader *)

Section LoaderMore.

Context {cell : Type}.
Implicit Types (df : DataFrame cell) (fs : storage cell).

Lemma load_same_file fs fs' (path : string) (load_by : pyvalue)
    (n r d : string) :
  fs path = fs' path ->
  load_targets_from_file fs (PyStr path) load_by n r d
  = load_targets_from_file fs' (PyStr path) load_by n r d.
Proof.
  intros Hfs.
  destruct (py_in load_by [PyStr "name"; PyStr "coord"]) eqn:Hmode;
    [|now rewrite !(load_bad_mode _ path load_by _ _ _ Hmode)].
  destruct (Str.endswith path ".csv") eqn:Hext;
    [|now rewrite !(load_bad_extension _ path load_by _ _ _ Hmode Hext)].
  destruct (fs path) as [e|df] eqn:E; symmetry in Hfs.
  - now rewrite (load_read_failure fs path e _ _ _ _ E Hext Hmode),
      (load_read_failure fs' path e _ _ _ _ Hfs Hext Hmode).
  - apply py_in_modes in Hmode as [-> | ->].
    + now rewrite (load_by_name fs path df _ _ _ E Hext),
        (load_by_name fs' path df _ _ _ Hfs Hext).
    + now rewrite (load_by_coord fs path df _ _ _ E Hext),
        (load_by_coord fs' path df _ _ _ Hfs Hext).
Qed.

Lemma load_trace fs (path : string) (load_by : pyvalue) (n r d : string) :
  trace (load_targets_from_file fs (PyStr path) load_by n r d) = []
  \/ trace (load_targets_from_file fs (PyStr path) load_by n r d)
     = [ReadCsv path].
Proof.
  destruct (py_in load_by [PyStr "name"; PyStr "coord"]) eqn:Hmode;
    [|left; now rewrite (load_bad_mode _ path load_by _ _ _ Hmode)].
  destruct (Str.endswith path ".csv") eqn:Hext;
    [|left; now rewrite (load_bad_extension _ path load_by _ _ _ Hmode Hext)].
  right. destruct (fs path) as [e|df] eqn:E.
  - now rewrite (load_read_failure fs path e _ _ _ _ E Hext Hmode).
  - apply py_in_modes in Hmode as [-> | ->].
    + now rewrite (load_by_name fs path df _ _ _ E Hext).
    + now rewrite (load_by_coord fs path df _ _ _ E Hext).
Qed.

(** X11. A call reads at most one file, the one named by [filename], and
    at most once; what the storage holds under any other name has no
    influence on the result. *)
Theorem loader_reads_only_its_file fs fs' (filename load_by : pyvalue)
    (namecol racol deccol : string) :
  (trace (load_targets_from_file fs filename load_by namecol racol deccol)
   = []
   \/ exists path,
        filename = PyStr path
        /\ trace (load_targets_from_file fs filename load_by
                    namecol racol deccol)
           = [ReadCsv path])
  /\ ((forall path, filename = PyStr path -> fs path = fs' path) ->
      load_targets_from_file fs filename load_by namecol racol deccol
      = load_targets_from_file fs' filename load_by namecol racol deccol).
Proof.
  destruct filename as [path| |];
    try (rewrite !load_not_str by reflexivity; split; [now left|reflexivity]).
  split.
  - destruct (load_trace fs path load_by namecol racol deccol) as [H|H];
      [now left | right; now exists path].
  - intros H. apply load_same_file. now apply H.
Qed.

Lemma names_branch_kind df n (t : targets cell) :
  outcome (names_branch df n) = Ok t -> exists l, t = Names l.
Proof.
  unfold names_branch.
  assert (K : forall label,
            outcome (x <- getitem df label ;;
                     l <- to_list x ;; ret (Names l)) = Ok t ->
            exists l, t = Names l).
  { intros label. unfold getitem.
    destruct (positions label df) as [|p [|q ps]]; try discriminate.
    - rewrite !bind_pure. intros [= <-]. eauto.
    - rewrite bind_pure. cbn [to_list].
      destruct (in_columns "to_list" _); discriminate. }
  destruct (Str.truthy (normalize n)).
  - destruct (in_columns (normalize n) df); cbn [assert_];
      [|discriminate].
    rewrite bind_pure. apply K.
  - rewrite bind_pure. unfold columns_item.
    destruct (nth_error (columns df) 0) as [c0|]; [|discriminate].
    rewrite bind_pure. apply K.
Qed.

Lemma coords_branch_kind df r d (t : targets cell) :
  outcome (coords_branch df r d) = Ok t -> exists l, t = Coords l.
Proof.
  unfold coords_branch.
  set (g := if Str.truthy (normalize r) && Str.truthy (normalize d)
            then _ else _).
  clearbody g.
  destruct (Str.truthy (normalize r));
    [destruct (in_columns (normalize r) df); cbn [assert_];
     [|discriminate]|];
    rewrite bind_pure;
    (destruct (Str.truthy (normalize d));
     [destruct (in_columns (normalize d) df); cbn [assert_];
      [|discriminate]|]);
    rewrite bind_pure;
    destruct g as [tr [c|e]]; try discriminate;
    unfold bind at 1, to_records_tolist;
    destruct (distinct (columns c)); cbn; try discriminate;
    intros [= <-]; eauto.
Qed.

(** X12. Whatever it is given, the loader never returns [None]: a value
    it returns is a list of names when [load_by] is ["name"] and a list of
    coordinate tuples when it is ["coord"]. *)
Theorem loader_result_kind fs (filename load_by : pyvalue)
    (namecol racol deccol : string) (t : targets cell) :
  outcome (load_targets_from_file fs filename load_by namecol racol deccol)
  = Ok t ->
  (load_by = PyStr "name" /\ exists l, t = Names l)
  \/ (load_by = PyStr "coord" /\ exists l, t = Coords l).
Proof.
  destruct filename as [path| |];
    try (rewrite load_not_str by reflexivity; discriminate).
  destruct (py_in load_by [PyStr "name"; PyStr "coord"]) eqn:Hmode;
    [|rewrite (load_bad_mode _ path load_by _ _ _ Hmode); discriminate].
  destruct (Str.endswith path ".csv") eqn:Hext;
    [|rewrite (load_bad_extension _ path load_by _ _ _ Hmode Hext);
      discriminate].
  destruct (fs path) as [e|df] eqn:E.
  - rewrite (load_read_failure fs path e _ _ _ _ E Hext Hmode).
    discriminate.
  - apply py_in_modes in Hmode as [-> | ->].
    + rewrite (load_by_name fs path df _ _ _ E Hext). cbn [outcome snd].
      intros H. left. split; [reflexivity|].
      now apply names_branch_kind in H.
    + rewrite (load_by_coord fs path df _ _ _ E Hext). cbn [outcome snd].
      intros H. right. split; [reflexivity|].
      now apply coords_branch_kind in H.
Qed.

(** X13. An error of [read_csv] is passed on as it is, after the one
    access to the file, in either mode and whatever the column
    arguments. *)
Theorem read_failure_is_passed_on fs (path : string) (e : io_error)
    (load_by : pyvalue) (namecol racol deccol : string) :
  fs path = inl e ->
  (exists pre, path = (pre ++ ".csv")%string) ->
  recognized_mode load_by ->
  load_targets_from_file fs (PyStr path) load_by namecol racol deccol
  = ([ReadCsv path], Raise (ReadFailure e)).
Proof.
  intros Hfs Hext Hmode. apply load_read_failure; [exact Hfs | |].
  - now apply StrFacts.endswith_spec.
  - now apply py_in_modes.
Qed.

Lemma endswith_same_length (pre suffix suffix' : string) :
  String.length suffix = String.length suffix' ->
  Str.endswith (pre ++ suffix) suffix' = true -> suffix = suffix'.
Proof.
  intros L H. apply StrFacts.endswith_spec in H as [pre' H].
  now destruct (append_same_tail_length pre suffix pre' suffix' H L).
Qed.

Lemma endswith_short (path suffix : string) :
  String.length path < String.length suffix ->
  Str.endswith path suffix = false.
Proof.
  intros L. destruct (Str.endswith path suffix) eqn:E; [|reflexivity].
  apply StrFacts.endswith_spec in E as [pre ->].
  rewrite length_append in L. lia.
Qed.

(** X14. The extension check is exact: a filename whose last four
    characters are anything but [.csv], another case of the same letters
    included, and a filename of fewer than four characters, are refused
    with the csv error before any file access. *)
Theorem extension_is_exact fs (pre suffix : string) (load_by : pyvalue)
    (namecol racol deccol : string) :
  recognized_mode load_by ->
  (String.length suffix = 4 -> suffix <> ".csv" ->
   load_targets_from_file fs (PyStr (pre ++ suffix)) load_by
     namecol racol deccol
   = ([], Raise (AssertionError msg_csv)))
  /\ (String.length suffix < 4 ->
      load_targets_from_file fs (PyStr suffix) load_by
        namecol racol deccol
      = ([], Raise (AssertionError msg_csv))).
Proof.
  intros Hmode. apply py_in_modes in Hmode. split.
  - intros L N. apply load_bad_extension; [exact Hmode|].
    destruct (Str.endswith (pre ++ suffix) ".csv") eqn:E; [|reflexivity].
    apply endswith_same_length in E; [contradiction | exact L].
  - intros L. apply load_bad_extension; [exact Hmode|].
    now apply endswith_short.
Qed.

End LoaderMore.

Lemma loader_result_kind_witness :
  (PyStr "coord" = PyStr "name"
   /\ exists l, Coords (map (firstn 2) (rows targets_csv)) = Names l)
  \/ (PyStr "coord" = PyStr "coord"
      /\ exists l, Coords (map (firstn 2) (rows targets_csv)) = Coords l).
Proof.
  apply (loader_result_kind disk (PyStr "targets.csv") (PyStr "coord")
           "" "" "").
  reflexivity.
Defined.

Lemma read_failure_is_passed_on_witness :
  load_targets_from_file disk (PyStr "missing.csv") (PyStr "name")
    "target_name" "ra" "dec"
  = ([ReadCsv "missing.csv"], Raise (ReadFailure FileNotFoundError)).
Proof.
  apply (read_failure_is_passed_on disk "missing.csv" FileNotFoundError).
  - reflexivity.
  - now exists "missing".
  - now left.
Defined.

Lemma extension_is_exact_witness :
  load_targets_from_file disk (PyStr "targets.CSV") (PyStr "name")
    "target_name" "ra" "dec"
  = ([], Raise (AssertionError msg_csv))
  /\ load_targets_from_file disk (PyStr "csv") (PyStr "name")
       "target_name" "ra" "dec"
     = ([], Raise (AssertionError msg_csv)).
Proof.
  split.
  - destruct (extension_is_exact disk "targets" ".CSV" (PyStr "name")
                "target_name" "ra" "dec" (or_introl eq_refl)) as [H _].
    apply H; [reflexivity | discriminate].
  - destruct (extension_is_exact disk "" "csv" (PyStr "name")
                "target_name" "ra" "dec" (or_introl eq_refl)) as [_ H].
    apply H. cbn. lia.
Defined.

Lemma loader_reads_only_its_file_witness :
  load_targets_from_file disk (PyStr "ids.csv") (PyStr "name")
    "target_name" "" ""
  = load_targets_from_file (fun _ => inr ids_csv) (PyStr "ids.csv")
      (PyStr "name") "target_name" "" "".
Proof.
  apply (loader_reads_only_its_file disk (fun _ => inr ids_csv)
           (PyStr "ids.csv") (PyStr "name") "target_name" "" "").
  intros path [= <-]. reflexivity.
Defined.

(** ** Normal forms of column names *)

Module NormalForm.
Import Str.
Local Open Scope string_scope.

Lemma lower_char_idempotent (c : ascii) :
  lower_char (lower_char c) = lower_char c.
Proof.
  destruct c as [[] [] [] [] [] [] [] []]; reflexivity.
Qed.

Lemma lower_idempotent (s : string) : lower (lower s) = lower s.
Proof.
  induction s as [|c s IH]; cbn [lower]; [reflexivity|].
  now rewrite lower_char_idempotent, IH.
Qed.

Lemma rstrip_idempotent (s : string) : rstrip (rstrip s) = rstrip s.
Proof.
  induction s as [|c s IH]; cbn [rstrip]; [reflexivity|].
  destruct (rstrip s) as [|c' r] eqn:E.
  - destruct (isspace c) eqn:Ec; cbn [rstrip]; [reflexivity|].
    now rewrite Ec.
  - cbn [rstrip]. cbn [rstrip] in IH. now rewrite IH.
Qed.

Lemma head_kept_lstrip (s : string) : head_kept (lstrip s) = true.
Proof.
  induction s as [|c s IH]; cbn [lstrip]; [reflexivity|].
  destruct (isspace c) eqn:E; [exact IH|]. cbn [head_kept]. now rewrite E.
Qed.

Lemma lstrip_head_kept (s : string) : head_kept s = true -> lstrip s = s.
Proof.
  destruct s as [|c s]; cbn [head_kept lstrip]; [reflexivity|].
  intros H. apply negb_true_iff in H. now rewrite H.
Qed.

Lemma head_kept_rstrip (s : string) :
  head_kept s = true -> head_kept (rstrip s) = true.
Proof.
  destruct s as [|c s]; cbn [head_kept rstrip]; [reflexivity|].
  intros H. destruct (rstrip s); [|exact H].
  apply negb_true_iff in H. now rewrite H; cbn; rewrite H.
Qed.

Lemma strip_idempotent (s : string) : strip (strip s) = strip s.
Proof.
  unfold strip.
  rewrite (lstrip_head_kept (rstrip (lstrip s)))
    by apply head_kept_rstrip, head_kept_lstrip.
  apply rstrip_idempotent.
Qed.

Lemma normalize_idempotent (x : string) :
  normalize (normalize x) = normalize x.
Proof.
  unfold normalize.
  now rewrite <- StrFacts.strip_lower, lower_idempotent,
    StrFacts.strip_lower, strip_idempotent.
Qed.

Lemma rstrip_empty (s : string) : rstrip s = EmptyString -> blank s = true.
Proof.
  induction s as [|c s IH]; cbn [rstrip blank]; [reflexivity|].
  destruct (rstrip s); [|discriminate].
  destruct (isspace c); [intros _; now apply IH | discriminate].
Qed.

Lemma lstrip_blank_inv (s : string) :
  blank (lstrip s) = true -> blank s = true.
Proof.
  induction s as [|c s IH]; cbn [lstrip blank]; [reflexivity|].
  destruct (isspace c) eqn:E; [exact IH|].
  cbn [blank]. now rewrite E.
Qed.

Lemma lower_empty (s : string) : lower s = EmptyString -> s = EmptyString.
Proof. destruct s; [reflexivity | discriminate]. Qed.

Lemma normalize_empty (x : string) :
  normalize x = EmptyString <-> blank x = true.
Proof.
  unfold normalize, strip. split.
  - intros H. apply lower_empty in H. apply rstrip_empty in H.
    now apply lstrip_blank_inv.
  - intros H. now rewrite (StrFacts.lstrip_blank x H).
Qed.

End NormalForm.

Section Overrides.

Context {cell : Type}.
Implicit Types (df : DataFrame cell) (fs : storage cell).

Lemma load_normalize fs (filename load_by : pyvalue)
    (n n' r r' d d' : string) :
  normalize n = normalize n' -> normalize r = normalize r' ->
  normalize d = normalize d' ->
  load_targets_from_file fs filename load_by n r d
  = load_targets_from_file fs filename load_by n' r' d'.
Proof.
  intros Hn Hr Hd. unfold load_targets_from_file.
  now rewrite Hn, Hr, Hd.
Qed.

(** X15. An override that consists of whitespace only counts as an empty
    one: the call behaves as if the empty string had been passed, and so
    selects by position. *)
Theorem blank_override_is_empty fs (filename load_by : pyvalue)
    (namecol racol deccol : string) :
  blank namecol = true -> blank racol = true -> blank deccol = true ->
  load_targets_from_file fs filename load_by namecol racol deccol
  = load_targets_from_file fs filename load_by "" "" "".
Proof.
  intros Hn Hr Hd. apply load_normalize;
    now apply NormalForm.normalize_empty.
Qed.

(** X16. Trimming and lower-casing reaches a fixed point in one step, so
    the name a missing-column error prints, passed back as the override,
    designates the same column: a call with the normalized overrides is
    the same call. *)
Theorem normalized_override_is_same_call fs (filename load_by : pyvalue)
    (namecol racol deccol : string) :
  normalize (normalize namecol) = normalize namecol
  /\ load_targets_from_file fs filename load_by
       (normalize namecol) (normalize racol) (normalize deccol)
     = load_targets_from_file fs filename load_by namecol racol deccol.
Proof.
  split; [apply NormalForm.normalize_idempotent|].
  apply load_normalize; apply NormalForm.normalize_idempotent.
Qed.

End Overrides.

Lemma blank_override_is_empty_witness :
  load_targets_from_file disk (PyStr "targets.csv") (PyStr "name")
    "   " " " ""
  = load_targets_from_file disk (PyStr "targets.csv") (PyStr "name")
      "" "" "".
Proof.
  apply (blank_override_is_empty disk (PyStr "targets.csv") (PyStr "name")
           "   " " " ""); reflexivity.
Defined.

(** ** Edge cases of the header *)

Section HeaderEdges.

Context {cell : Type}.
Implicit Types (df : DataFrame cell) (fs : storage cell).

Lemma positions_from_present (k : nat) (label : string)
    (cols : list string) :
  In label cols -> positions_from k label cols <> [].
Proof.
  revert k; induction cols as [|c cols IH]; intros k; cbn [In];
    [tauto|].
  intros H. cbn [positions_from].
  destruct (String.eqb c label) eqn:E; [discriminate|].
  apply IH. destruct H as [->|H]; [|exact H].
  now rewrite String.eqb_refl in E.
Qed.

Lemma positions_from_twice (k i j : nat) (label : string)
    (cols : list string) :
  nth_error cols i = Some label -> nth_error cols j = Some label ->
  i <> j ->
  exists p q ps, positions_from k label cols = p :: q :: ps.
Proof.
  revert k i j; induction cols as [|c cols IH]; intros k i j Hi Hj Hij.
  - now destruct i.
  - cbn [positions_from].
    assert (Two : forall m, nth_error cols m = Some label ->
              c = label ->
              exists p q ps,
                (if String.eqb c label
                 then k :: positions_from (S k) label cols
                 else positions_from (S k) label cols) = p :: q :: ps).
    { intros m Hm ->. rewrite String.eqb_refl.
      destruct (positions_from (S k) label cols) as [|q ps] eqn:E.
      - exfalso. apply (positions_from_present (S k) label cols);
          [eapply nth_error_In; exact Hm | exact E].
      - now exists k, q, ps. }
    destruct i as [|i], j as [|j]; cbn [nth_error] in Hi, Hj;
      try congruence.
    + apply (Two j Hj). congruence.
    + apply (Two i Hi). congruence.
    + destruct (string_dec c label) as [Ec|Ec]; [exact (Two i Hi Ec)|].
      apply String.eqb_neq in Ec. rewrite Ec.
      apply (IH (S k) i j Hi Hj). congruence.
Qed.

Lemma positions_from_sound (k p : nat) (label : string)
    (cols : list string) :
  In p (positions_from k label cols) ->
  k <= p /\ nth_error cols (p - k) = Some label.
Proof.
  revert k; induction cols as [|c cols IH]; intros k;
    cbn [positions_from In]; [tauto|].
  assert (Later : In p (positions_from (S k) label cols) ->
                  k <= p /\ nth_error (c :: cols) (p - k) = Some label).
  { intros H. destruct (IH (S k) H) as [L N]. split; [lia|].
    replace (p - k) with (S (p - S k)) by lia. exact N. }
  destruct (String.eqb c label) eqn:E; [|exact Later].
  intros [<- | H]; [|now apply Later].
  apply String.eqb_eq in E. subst. rewrite Nat.sub_diag. now split.
Qed.

Lemma take_constant (ps : list nat) (label : string) (cols : list string) :
  (forall p, In p ps -> nth_error cols p = Some label) ->
  take ps cols = map (fun _ => label) ps.
Proof.
  induction ps as [|p ps IH]; intros H; [reflexivity|].
  unfold take in *. cbn [flat_map map].
  rewrite (H p) by now left. cbn [app]. f_equal.
  apply IH. intros q Hq. apply H. now right.
Qed.

Lemma existsb_constant {A B : Type} (f : A -> bool) (x : A)
    (l : list B) :
  f x = false -> existsb f (map (fun _ => x) l) = false.
Proof.
  intros H. induction l as [|b l IH]; cbn [map existsb]; [reflexivity|].
  now rewrite H, IH.
Qed.

Lemma names_collide df n (i j : nat) :
  normalize n <> EmptyString ->
  nth_error (columns df) i = Some (normalize n) ->
  nth_error (columns df) j = Some (normalize n) ->
  i <> j ->
  outcome (names_branch df n)
  = Raise (if String.eqb "to_list" (normalize n)
           then TypeError else AttributeError).
Proof.
  intros Hn Hi Hj Hij. unfold names_branch.
  apply StrFacts.truthy_true in Hn. rewrite Hn.
  assert (Hin : in_columns (normalize n) df = true)
    by (apply in_columns_In; eapply nth_error_In; eassumption).
  rewrite Hin. cbn [assert_]. rewrite bind_pure. unfold getitem.
  destruct (positions_from_twice 0 i j _ _ Hi Hj Hij) as [p [q [ps E]]].
  assert (Hcols : take (positions (normalize n) df) (columns df)
                  = map (fun _ => normalize n)
                      (positions (normalize n) df)).
  { apply take_constant. intros p' Hp'.
    apply positions_from_sound in Hp' as [_ Hp'].
    now rewrite Nat.sub_0_r in Hp'. }
  unfold positions in *. rewrite E in *. rewrite bind_pure.
  cbn [to_list]. unfold in_columns, select. cbn [columns].
  rewrite Hcols. cbn [map existsb].
  destruct (String.eqb "to_list" (normalize n)) eqn:T; [reflexivity|].
  cbn [orb]. now rewrite (existsb_constant _ _ ps T).
Qed.

(** X17. When two header names of the file coincide once trimmed and
    lower-cased, a name-mode load that asks for that name does not return:
    pandas hands back a table instead of a column, and the call ends,
    after the read, with an [AttributeError], or with a [TypeError] when
    the name is [to_list]. *)
Theorem colliding_header_names_fail fs (path : string) df
    (namecol racol deccol : string) (i j : nat) :
  fs path = inr df ->
  Str.endswith path ".csv" = true ->
  normalize namecol <> EmptyString ->
  nth_error (normalized_columns df) i = Some (normalize namecol) ->
  nth_error (normalized_columns df) j = Some (normalize namecol) ->
  i <> j ->
  (normalize namecol <> "to_list" ->
   load_targets_from_file fs (PyStr path) (PyStr "name")
     namecol racol deccol
   = ([ReadCsv path], Raise AttributeError))
  /\ (normalize namecol = "to_list" ->
      load_targets_from_file fs (PyStr path) (PyStr "name")
        namecol racol deccol
      = ([ReadCsv path], Raise TypeError)).
Proof.
  intros Hfs Hext Hn Hi Hj Hij.
  rewrite (load_by_name fs path df _ _ _ Hfs Hext).
  rewrite (names_collide (rename normalize df) namecol i j Hn Hi Hj Hij).
  split.
  - intros Hne. assert (E : String.eqb "to_list" (normalize namecol) = false)
      by (apply String.eqb_neq; congruence).
    now rewrite E.
  - intros ->. reflexivity.
Qed.

Lemma coords_single_column df r d (c : string) :
  columns df = [c] ->
  normalize r = EmptyString \/ normalize d = EmptyString ->
  normalize r = EmptyString \/ In (normalize r) (columns df) ->
  normalize d = EmptyString \/ In (normalize d) (columns df) ->
  outcome (coords_branch df r d)
  = Ok (Coords (map (firstn 1) (rows df))).
Proof.
  intros Hc Hempty Hr Hd. unfold coords_branch.
  rewrite (ra_check_passes df r Hr), bind_pure.
  rewrite (ra_check_passes df d Hd), bind_pure.
  assert (Hb : Str.truthy (normalize r) && Str.truthy (normalize d)
               = false).
  { destruct Hempty as [H|H]; apply StrFacts.truthy_false in H;
      rewrite H; [reflexivity | apply andb_false_r]. }
  rewrite Hb. unfold getitem_list, columns_slice. rewrite Hc.
  cbn [firstn positions_of].
  rewrite (positions_unique 0 c df);
    [| rewrite Hc; repeat constructor; intros [] | now rewrite Hc].
  rewrite !bind_pure. unfold to_records_tolist, select. rewrite Hc.
  cbn [columns rows take flat_map nth_error app distinct existsb negb andb].
  rewrite bind_pure. cbn [outcome ret snd]. do 2 f_equal.
  apply map_ext. intros a. now destruct a.
Qed.

(** X18. On a file with a single column the positional fallback of
    coordinate mode does not fail: it returns one tuple per row, each
    holding that row's only cell, not a pair. *)
Theorem single_column_coords fs (path : string) df (c : string)
    (namecol racol deccol : string) :
  fs path = inr df ->
  Str.endswith path ".csv" = true ->
  rectangular df ->
  columns df = [c] ->
  normalize racol = EmptyString \/ normalize deccol = EmptyString ->
  normalize racol = EmptyString \/ normalize racol = normalize c ->
  normalize deccol = EmptyString \/ normalize deccol = normalize c ->
  load_targets_from_file fs (PyStr path) (PyStr "coord")
    namecol racol deccol
  = ([ReadCsv path], Ok (Coords (map (firstn 1) (rows df))))
  /\ Forall (fun t => length t = 1) (map (firstn 1) (rows df)).
Proof.
  intros Hfs Hext Hrect Hc Hempty Hr Hd. split.
  - rewrite (load_by_coord fs path df _ _ _ Hfs Hext). f_equal.
    apply (coords_single_column (rename normalize df) racol deccol
             (normalize c)); try assumption.
    + rewrite rename_columns. now rewrite Hc.
    + rewrite rename_columns, Hc. destruct Hr as [H|H];
        [now left | right; now left].
    + rewrite rename_columns, Hc. destruct Hd as [H|H];
        [now left | right; now left].
  - unfold rectangular in Hrect. rewrite Hc in Hrect.
    apply Forall_map. eapply Forall_impl; [|exact Hrect].
    intros r Hlen. destruct r as [|a [|b r]]; cbn in *; congruence.
Qed.

(** X19. On a valid table a coordinate-mode load returns one pair per data
    row, in row order: the pair at place [n] holds the cells of row [n] in
    the resolved RA and Dec columns. *)
Theorem coord_mode_keeps_rows fs (path : string) df
    (namecol racol deccol : string) (i j : nat) :
  fs path = inr df ->
  Str.endswith path ".csv" = true ->
  valid_table df ->
  coord_columns df racol deccol i j ->
  exists l,
    load_targets_from_file fs (PyStr path) (PyStr "coord")
      namecol racol deccol
    = ([ReadCsv path], Ok (Coords l))
    /\ length l = length (rows df)
    /\ forall n r, nth_error (rows df) n = Some r ->
         exists a b, nth_error r i = Some a /\ nth_error r j = Some b
                     /\ nth_error l n = Some [a; b].
Proof.
  intros Hfs Hext [Hrect Hnd] Hcol.
  rewrite (load_by_coord fs path df _ _ _ Hfs Hext).
  exists (map (take [i; j]) (rows df)).
  assert (Hcells : forall r, In r (rows df) ->
            exists a b, nth_error r i = Some a /\ nth_error r j = Some b).
  { unfold coord_columns in Hcol. intros r Hr.
    unfold rectangular in Hrect. rewrite Forall_forall in Hrect.
    specialize (Hrect r Hr).
    assert (Hi : i < length r /\ j < length r).
    { rewrite Hrect. rewrite <- !(length_map normalize (columns df)).
      fold (normalized_columns df).
      destruct (Str.truthy (normalize racol)
                && Str.truthy (normalize deccol)).
      - destruct Hcol as [Hi [Hj _]].
        split; apply nth_error_Some; congruence.
      - destruct Hcol as [-> [-> [Hlen _]]].
        unfold normalized_columns. rewrite length_map. lia. }
    destruct Hi as [Hi Hj]. apply nth_error_Some in Hi, Hj.
    destruct (nth_error r i) as [a|]; [|congruence].
    destruct (nth_error r j) as [b|]; [|congruence].
    now exists a, b. }
  assert (Hpos : forall r d,
            normalize r = EmptyString \/ normalize d = EmptyString ->
            coord_columns df r d i j ->
            Str.truthy (normalize r) && Str.truthy (normalize d) = false ->
            outcome (coords_branch (rename normalize df) r d)
            = Ok (Coords (map (take [i; j]) (rows df)))).
  { intros r d Hempty Hc Hb. unfold coord_columns in Hc. rewrite Hb in Hc.
    destruct Hc as [-> [-> [Hlen [Hr Hd]]]].
    rewrite (coords_positional (rename normalize df) r d);
      try assumption.
    - do 2 f_equal. apply map_ext. intros a. symmetry.
      apply take_first_two.
    - now rewrite rename_columns, length_map. }
  split; [|split].
  - f_equal.
    destruct (Str.truthy (normalize racol)) eqn:Tr,
      (Str.truthy (normalize deccol)) eqn:Td.
    + unfold coord_columns in Hcol. rewrite Tr, Td in Hcol.
      destruct Hcol as [Hi [Hj Hij]].
      apply (coords_found (rename normalize df) racol deccol i j);
        try assumption; now apply StrFacts.truthy_true.
    + apply Hpos; [right; now apply StrFacts.truthy_false | exact Hcol|].
      now rewrite Tr, Td.
    + apply Hpos; [left; now apply StrFacts.truthy_false | exact Hcol|].
      now rewrite Tr, Td.
    + apply Hpos; [left; now apply StrFacts.truthy_false | exact Hcol|].
      now rewrite Tr, Td.
  - apply length_map.
  - intros n r Hn.
    destruct (Hcells r (nth_error_In _ _ Hn)) as [a [b [Ha Hb]]].
    exists a, b. repeat split; try assumption.
    rewrite nth_error_map, Hn. cbn [option_map].
    now rewrite (take_two i j r a b Ha Hb).
Qed.

End HeaderEdges.

(** ** Repeated names *)

Lemma first_occurrences_length (l : list string) :
  length (first_occurrences l) <= length l.
Proof.
  induction l as [|x l IH]; cbn [first_occurrences length]; [lia|].
  pose proof (filter_length_le
                (fun y => negb (String.eqb y x)) (first_occurrences l)).
  lia.
Qed.

(** X20. The count dictionary has at most one entry per name supplied,
    and exactly as many entries as names when, and only when, no name is
    repeated: a list with a repeated target yields fewer counts than
    targets. *)
Theorem repeated_names_shrink_the_map (count : string -> nat)
    (names : list string) :
  length (count_targets count names) <= length names
  /\ (length (count_targets count names) = length names <-> NoDup names).
Proof.
  assert (E : length (count_targets count names)
              = length (first_occurrences names)).
  { rewrite <- (length_map fst). fold (keys (count_targets count names)).
    unfold count_targets. now rewrite keys_count_loop, keys_zero_counts. }
  rewrite E. split; [apply first_occurrences_length|]. split.
  - intros L.
    eapply NoDup_incl_NoDup.
    + apply first_occurrences_NoDup.
    + rewrite L. apply Nat.le_refl.
    + intros x Hx. now apply first_occurrences_In.
  - intros Hnd. apply Nat.le_antisymm; [apply first_occurrences_length|].
    apply NoDup_incl_length; [exact Hnd|].
    intros x Hx. now apply first_occurrences_In.
Qed.

Lemma colliding_header_names_fail_witness :
  load_targets_from_file (fun _ => inr dup_csv) (PyStr "dup.csv")
    (PyStr "name") "NAME" "ra" "dec"
  = ([ReadCsv "dup.csv"], Raise AttributeError)
  /\ load_targets_from_file (fun _ => inr to_list_csv) (PyStr "dup.csv")
       (PyStr "name") "to_list" "ra" "dec"
     = ([ReadCsv "dup.csv"], Raise TypeError).
Proof.
  split.
  - apply (colliding_header_names_fail (fun _ => inr dup_csv) "dup.csv"
             dup_csv "NAME" "ra" "dec" 0 1); try reflexivity;
      discriminate.
  - apply (colliding_header_names_fail (fun _ => inr to_list_csv)
             "dup.csv" to_list_csv "to_list" "ra" "dec" 0 1);
      try reflexivity; discriminate.
Defined.

Lemma single_column_coords_witness :
  load_targets_from_file (fun _ => inr names_only_csv) (PyStr "names.csv")
    (PyStr "coord") "target_name" "" "target"
  = ([ReadCsv "names.csv"], Ok (Coords [ ["CX Tau"]; ["M 8"] ]))
  /\ Forall (fun t => length t = 1) [ ["CX Tau"]; ["M 8"] ].
Proof.
  apply (single_column_coords (fun _ => inr names_only_csv) "names.csv"
           names_only_csv "Target" "target_name" "" "target").
  - reflexivity.
  - reflexivity.
  - repeat constructor.
  - reflexivity.
  - now left.
  - now left.
  - now right.
Defined.

Lemma coord_mode_keeps_rows_witness :
  exists l,
    load_targets_from_file disk (PyStr "targets.csv") (PyStr "coord")
      "" "ra" "dec"
    = ([ReadCsv "targets.csv"], Ok (Coords l))
    /\ length l = 5
    /\ forall n r, nth_error (rows targets_csv) n = Some r ->
         exists a b, nth_error r 1 = Some a /\ nth_error r 2 = Some b
                     /\ nth_error l n = Some [a; b].
Proof.
  apply (coord_mode_keeps_rows disk "targets.csv" targets_csv
           "" "ra" "dec" 1 2).
  - reflexivity.
  - reflexivity.
  - valid_sample.
  - repeat split; discriminate.
Defined.
